(** * Sources/CIO/include/macros.h: platform and feature detection

    The header is a sequence of conditional-compilation directives.  It reads
    the macros that are defined when it is included and defines the
    LABSOUND_* capability macros from them.  The development below embeds
    the directives as functions on the state of the translation unit and
    proves what the header leaves behind. *)

From Stdlib Require Import ZArith Lia.
From stdpp Require Import base strings gmap list.

Local Open Scope Z_scope.

(** ** The state of a translation unit *)

(** The replacement list of an object-like macro.  The header itself only
    writes [#define X 1] and [#define X]; toolchains predefine the symbols
    that it tests with an integer literal, or with nothing.  Replacement
    lists of other shapes are not modelled. *)
Inductive body : Type :=
  | NoTokens
  | Literal (z : Z).

#[global] Instance body_eq_dec : EqDecision body.
Proof. solve_decision. Defined.

(** A redefinition of a macro with a different replacement list is
    diagnosed; the later definition is the one that stays. *)
Inductive diagnostic : Type :=
  | Redefined (name : string).

Record tu : Type := TU {
  macros : gmap string body;       (* the macro table *)
  included : list string;          (* #include directives met, in order *)
  diagnostics : list diagnostic    (* diagnostics issued, in order *)
}.

(** The translation unit just before the header, with the macros [m] that
    the toolchain and the build predefine. *)
Definition start (m : gmap string body) : tu := TU m [] [].

Definition is_defined (n : string) (st : tu) : bool :=
  match macros st !! n with Some _ => true | None => false end.

(** ** Controlling expressions of #if

    An expression evaluates to an integer of type intmax_t, or is
    ill-formed ([None]).  All operands are parsed, so an ill-formed operand
    makes the whole expression ill-formed whatever the other operands are. *)
Definition expr : Type := tu → option Z.

Definition intmax_max : Z := 2 ^ 63 - 1.

Definition fits (z : Z) : bool := (- intmax_max <=? z) && (z <=? intmax_max).

Definition truth (z : Z) : bool := negb (z =? 0).

(** [defined(n)] *)
Definition defined (n : string) : expr :=
  λ st, Some (Z.b2z (is_defined n st)).

(** The identifier [n] used as an operand: an identifier that is not a macro
    is 0, a macro is replaced by its body.  An empty body leaves an operand
    missing, and a literal must be representable. *)
Definition ident (n : string) : expr :=
  λ st, match macros st !! n with
        | None => Some 0
        | Some (Literal z) => if fits z then Some z else None
        | Some NoTokens => None
        end.

Definition num (z : Z) : expr := λ _, Some z.

Definition e_or (a b : expr) : expr :=
  λ st, x ← a st; y ← b st; Some (Z.b2z (truth x || truth y)).

Definition e_and (a b : expr) : expr :=
  λ st, x ← a st; y ← b st; Some (Z.b2z (truth x && truth y)).

Definition e_ge (a b : expr) : expr :=
  λ st, x ← a st; y ← b st; Some (Z.b2z (y <=? x)).

Declare Scope expr_scope.
Delimit Scope expr_scope with E.
Bind Scope expr_scope with expr.
Notation "a || b" := (e_or a%E b%E) : expr_scope.
Notation "a && b" := (e_and a%E b%E) : expr_scope.
Notation "a >= b" := (e_ge a%E b%E) : expr_scope.

(** ** Directives *)

(** A directive, or a group of them, transforms the translation unit or
    stops the translation ([None]). *)
Definition directive : Type := tu → option tu.

(** [#define n b] *)
Definition define (n : string) (b : body) (st : tu) : tu :=
  match macros st !! n with
  | None => TU (<[n := b]> (macros st)) (included st) (diagnostics st)
  | Some b' =>
      if decide (b' = b) then st
      else TU (<[n := b]> (macros st)) (included st)
              (diagnostics st ++ [Redefined n])
  end.

Definition Define (n : string) (b : body) : directive :=
  λ st, Some (define n b st).

(** [#include <h>].  The system headers are not part of the repository;
    the inclusion is recorded, and the headers are taken to leave alone the
    macros that this file tests or defines. *)
Definition include (h : string) (st : tu) : tu :=
  TU (macros st) (included st ++ [h]) (diagnostics st).

Definition Include (h : string) : directive :=
  λ st, Some (include h st).

(** [#endif] straight after a group: nothing more to do. *)
Definition Endif : directive := Some.

Definition seq (d1 d2 : directive) : directive :=
  λ st, st' ← d1 st; d2 st'.

Declare Scope directive_scope.
Delimit Scope directive_scope with D.
Bind Scope directive_scope with directive.
Notation "d1 ;; d2" := (seq d1%D d2%D)
  (at level 100, d2 at level 200, right associativity) : directive_scope.

(** [#if c] group [#else]/[#elif] rest.  The expression of the rest is only
    looked at when [c] is 0. *)
Definition If (c : expr) (group rest : directive) : directive :=
  λ st, v ← c st; if truth v then group st else rest st.

(** [#ifndef n] group [#endif] *)
Definition Ifndef (n : string) (group : directive) : directive :=
  λ st, if is_defined n st then Some st else group st.

(** ** The header, group by group *)

(* lines 5-12 *)
Definition platform : directive :=
  If (defined "__linux" || defined "__unix" || defined "__posix"
      || defined "__LINUX__" || defined "__linux__")
    (Define "LABSOUND_PLATFORM_LINUX" (Literal 1))
  (If (defined "_WIN64" || defined "_WIN32" || defined "__CYGWIN32__"
       || defined "__MINGW32__")
    (Define "LABSOUND_PLATFORM_WINDOWS" (Literal 1))
  (If (defined "MACOSX" || defined "__DARWIN__" || defined "__APPLE__")
    (Define "LABSOUND_PLATFORM_OSX" (Literal 1) ;;
     Define "__MACOSX_CORE__" (Literal 1))
  Endif)).

(* lines 14-18 *)
Definition arch : directive :=
  If (defined "WIN_32" || defined "__i386__" || defined "i386"
      || defined "__x86__")
    (Define "LABSOUND_ARCH_32" (Literal 1))
  (If (defined "__amd64" || defined "__amd64__" || defined "__x86_64"
       || defined "__x86_64__" || defined "_M_X64" || defined "__ia64__"
       || defined "_M_IA64")
    (Define "LABSOUND_ARCH_64" (Literal 1))
  Endif).

(* lines 20-26 *)
Definition compiler : directive :=
  If (defined "__clang__")
    (Define "LABSOUND_COMPILER_CLANG" (Literal 1))
  (If (defined "__GNUC__")
    (Define "LABSOUND_COMPILER_GCC" (Literal 1))
  (If (defined "_MSC_VER")
    (Define "LABSOUND_COMPILER_VISUAL_STUDIO" (Literal 1))
  Endif)).

(* lines 28-30 *)
Definition sse2 : directive :=
  If ((ident "_M_IX86_FP" && (ident "_M_IX86_FP" >= num 2))
      || ident "_M_AMD64" || defined "_M_X64")
    (Define "__SSE2__" NoTokens)
  Endif.

(* lines 32-37 *)
Definition msvc_shims : directive :=
  If (defined "LABSOUND_COMPILER_VISUAL_STUDIO")
    (Include "stdint.h" ;;
     Define "_USE_MATH_DEFINES" NoTokens ;;
     Include "math.h" ;;
     Include "cmath")
  Endif.

(* lines 39-41 *)
Definition neon : directive :=
  If (defined "__ARM_NEON__")
    (Define "ARM_NEON_INTRINSICS" (Literal 1))
  Endif.

(* lines 43-46 *)
Definition posix_math : directive :=
  If (defined "LABSOUND_PLATFORM_OSX" || defined "LABSOUND_PLATFORM_LINUX")
    (Include "math.h")
  Endif.

(* lines 48-50 *)
Definition kissfft_linux : directive :=
  If (defined "LABSOUND_PLATFORM_LINUX")
    (Define "WEBAUDIO_KISSFFT" (Literal 1))
  Endif.

(* lines 52-54 *)
Definition kissfft_osx : directive :=
  If (defined "LABSOUND_PLATFORM_OSX")
    (Define "WEBAUDIO_KISSFFT" (Literal 1))
  Endif.

(* lines 2-55 *)
Definition labsound_macros_h : directive :=
  Ifndef "labsound_macros_h"
    (Define "labsound_macros_h" NoTokens ;;
     platform ;; arch ;; compiler ;; sse2 ;; msvc_shims ;; neon ;;
     posix_math ;; kissfft_linux ;; kissfft_osx).

(** The header included into a unit that starts with the macros [m]. *)
Definition resolve (m : gmap string body) : option tu :=
  labsound_macros_h (start m).

(** ** What the conditions read *)

Definition linux_like (st : tu) : bool :=
  is_defined "__linux" st || is_defined "__unix" st || is_defined "__posix" st
  || is_defined "__LINUX__" st || is_defined "__linux__" st.

Definition windows_like (st : tu) : bool :=
  is_defined "_WIN64" st || is_defined "_WIN32" st
  || is_defined "__CYGWIN32__" st || is_defined "__MINGW32__" st.

Definition osx_like (st : tu) : bool :=
  is_defined "MACOSX" st || is_defined "__DARWIN__" st
  || is_defined "__APPLE__" st.

Definition arch32_like (st : tu) : bool :=
  is_defined "WIN_32" st || is_defined "__i386__" st || is_defined "i386" st
  || is_defined "__x86__" st.

Definition arch64_like (st : tu) : bool :=
  is_defined "__amd64" st || is_defined "__amd64__" st
  || is_defined "__x86_64" st || is_defined "__x86_64__" st
  || is_defined "_M_X64" st || is_defined "__ia64__" st
  || is_defined "_M_IA64" st.

(** The value an identifier has as an operand, 0 when it has none. *)
Definition value (n : string) (st : tu) : Z := default 0 (ident n st).

Definition has_value (n : string) (st : tu) : bool :=
  match ident n st with Some _ => true | None => false end.

(** The expression of line 28 is well-formed. *)
Definition numeric (st : tu) : bool :=
  has_value "_M_IX86_FP" st && has_value "_M_AMD64" st.

Definition sse2_wanted (st : tu) : bool :=
  (truth (value "_M_IX86_FP" st) && (2 <=? value "_M_IX86_FP" st))
  || truth (value "_M_AMD64" st) || is_defined "_M_X64" st.

(** ** Names *)

(** The names of the header's own: its guard and the flags it resolves. *)
Definition own_names : list string :=
  [ "labsound_macros_h";
    "LABSOUND_PLATFORM_LINUX"; "LABSOUND_PLATFORM_WINDOWS";
    "LABSOUND_PLATFORM_OSX"; "__MACOSX_CORE__";
    "LABSOUND_ARCH_32"; "LABSOUND_ARCH_64";
    "LABSOUND_COMPILER_CLANG"; "LABSOUND_COMPILER_GCC";
    "LABSOUND_COMPILER_VISUAL_STUDIO";
    "ARM_NEON_INTRINSICS"; "WEBAUDIO_KISSFFT" ].

(** The names it defines that belong to others: GCC and Clang predefine
    __SSE2__ themselves, and _USE_MATH_DEFINES is a switch of the C library
    that a build may already have set. *)
Definition foreign_names : list string := [ "__SSE2__"; "_USE_MATH_DEFINES" ].

Definition header_names : list string := own_names ++ foreign_names.

(** The symbols the header tests in order to resolve its flags. *)
Definition input_names : list string :=
  [ "__linux"; "__unix"; "__posix"; "__LINUX__"; "__linux__";
    "_WIN64"; "_WIN32"; "__CYGWIN32__"; "__MINGW32__";
    "MACOSX"; "__DARWIN__"; "__APPLE__";
    "WIN_32"; "__i386__"; "i386"; "__x86__";
    "__amd64"; "__amd64__"; "__x86_64"; "__x86_64__"; "_M_X64";
    "__ia64__"; "_M_IA64";
    "__clang__"; "__GNUC__"; "_MSC_VER";
    "_M_IX86_FP"; "_M_AMD64";
    "__ARM_NEON__" ].

Definition is_header_name (k : string) : bool :=
  existsb (String.eqb k) header_names.

Definition is_input_name (k : string) : bool :=
  existsb (String.eqb k) input_names.

Definition none_defined (names : list string) (st : tu) : bool :=
  forallb (λ n, negb (is_defined n st)) names.

(** An input symbol set: the macros of the toolchain, among which none of
    the header's own names occurs.  (The header never undefines: a build
    that defines one of these names itself has decided that flag, whatever
    the header resolves.) *)
Definition toolchain_symbols (m : gmap string body) : bool :=
  none_defined own_names (start m).

(** None of the symbols that the header tests or defines is present. *)
Definition unrecognised (m : gmap string body) : bool :=
  none_defined (input_names ++ header_names) (start m).

(** Two symbol sets give the same definitions to the symbols that the
    header tests and to the two foreign names. *)
Definition same_symbols (m m' : gmap string body) : bool :=
  forallb (λ n, bool_decide (m !! n = m' !! n)) (input_names ++ foreign_names).

(** [st'] has the macros of [st], up to the names the header defines. *)
Definition same_inputs (st st' : tu) : Prop :=
  ∀ k, is_header_name k = false → macros st' !! k = macros st !! k.

(** [st'] gives the symbols that the header tests the definitions they
    have in [st]. *)
Definition same_tested (st st' : tu) : Prop :=
  ∀ k, is_input_name k = true → macros st' !! k = macros st !! k.

(** ** The flags *)

(** The flags that the header resolves, read from the macro table. *)
Record flags : Type := Flags {
  PLATFORM_LINUX : bool;
  PLATFORM_WINDOWS : bool;
  PLATFORM_OSX : bool;
  MACOSX_CORE : bool;
  ARCH_32 : bool;
  ARCH_64 : bool;
  COMPILER_CLANG : bool;
  COMPILER_GCC : bool;
  COMPILER_VISUAL_STUDIO : bool;
  SIMD_SSE2_AVAILABLE : bool;
  USE_MATH_DEFINES : bool;
  ARM_NEON_INTRINSICS : bool;
  USE_EMBEDDED_FFT : bool
}.

Definition flags_of (st : tu) : flags := {|
  PLATFORM_LINUX := is_defined "LABSOUND_PLATFORM_LINUX" st;
  PLATFORM_WINDOWS := is_defined "LABSOUND_PLATFORM_WINDOWS" st;
  PLATFORM_OSX := is_defined "LABSOUND_PLATFORM_OSX" st;
  MACOSX_CORE := is_defined "__MACOSX_CORE__" st;
  ARCH_32 := is_defined "LABSOUND_ARCH_32" st;
  ARCH_64 := is_defined "LABSOUND_ARCH_64" st;
  COMPILER_CLANG := is_defined "LABSOUND_COMPILER_CLANG" st;
  COMPILER_GCC := is_defined "LABSOUND_COMPILER_GCC" st;
  COMPILER_VISUAL_STUDIO := is_defined "LABSOUND_COMPILER_VISUAL_STUDIO" st;
  SIMD_SSE2_AVAILABLE := is_defined "__SSE2__" st;
  USE_MATH_DEFINES := is_defined "_USE_MATH_DEFINES" st;
  ARM_NEON_INTRINSICS := is_defined "ARM_NEON_INTRINSICS" st;
  USE_EMBEDDED_FFT := is_defined "WEBAUDIO_KISSFFT" st
|}.

Definition no_flags : flags :=
  Flags false false false false false false false false false false false
        false false.

(** At most one of the flags [l] is set. *)
Definition at_most_one (l : list bool) : Prop :=
  (count_occ bool_dec l true ≤ 1)%nat.

(** The flags as the symbols at the start decide them. *)
Definition flags_from_symbols (st : tu) : flags :=
  let l := linux_like st in
  let w := negb l && windows_like st in
  let o := negb l && negb (windows_like st) && osx_like st in
  let a := arch32_like st in
  let c := is_defined "__clang__" st in
  let g := negb c && is_defined "__GNUC__" st in
  let v := negb c && negb (is_defined "__GNUC__" st)
           && is_defined "_MSC_VER" st in
  {| PLATFORM_LINUX := l;
     PLATFORM_WINDOWS := w;
     PLATFORM_OSX := o;
     MACOSX_CORE := o;
     ARCH_32 := a;
     ARCH_64 := negb a && arch64_like st;
     COMPILER_CLANG := c;
     COMPILER_GCC := g;
     COMPILER_VISUAL_STUDIO := v;
     SIMD_SSE2_AVAILABLE := sse2_wanted st || is_defined "__SSE2__" st;
     USE_MATH_DEFINES := v || is_defined "_USE_MATH_DEFINES" st;
     ARM_NEON_INTRINSICS := is_defined "__ARM_NEON__" st;
     USE_EMBEDDED_FFT := l || o |}.
(** ** The groups in closed form *)

Definition cdefine (c : bool) (n : string) (b : body) (st : tu) : tu :=
  if c then define n b st else st.

Definition cinclude (c : bool) (h : string) (st : tu) : tu :=
  if c then include h st else st.

Definition platform_result (st : tu) : tu :=
  let l := linux_like st in
  let w := negb l && windows_like st in
  let o := negb l && negb w && osx_like st in
  cdefine o "__MACOSX_CORE__" (Literal 1)
    (cdefine o "LABSOUND_PLATFORM_OSX" (Literal 1)
      (cdefine w "LABSOUND_PLATFORM_WINDOWS" (Literal 1)
        (cdefine l "LABSOUND_PLATFORM_LINUX" (Literal 1) st))).

Definition arch_result (st : tu) : tu :=
  let a := arch32_like st in
  cdefine (negb a && arch64_like st) "LABSOUND_ARCH_64" (Literal 1)
    (cdefine a "LABSOUND_ARCH_32" (Literal 1) st).

Definition compiler_result (st : tu) : tu :=
  let c := is_defined "__clang__" st in
  let g := negb c && is_defined "__GNUC__" st in
  let v := negb c && negb g && is_defined "_MSC_VER" st in
  cdefine v "LABSOUND_COMPILER_VISUAL_STUDIO" (Literal 1)
    (cdefine g "LABSOUND_COMPILER_GCC" (Literal 1)
      (cdefine c "LABSOUND_COMPILER_CLANG" (Literal 1) st)).

Definition sse2_result (st : tu) : tu :=
  cdefine (sse2_wanted st) "__SSE2__" NoTokens st.

Definition msvc_shims_result (st : tu) : tu :=
  let v := is_defined "LABSOUND_COMPILER_VISUAL_STUDIO" st in
  cinclude v "cmath"
    (cinclude v "math.h"
      (cdefine v "_USE_MATH_DEFINES" NoTokens
        (cinclude v "stdint.h" st))).

Definition neon_result (st : tu) : tu :=
  cdefine (is_defined "__ARM_NEON__" st) "ARM_NEON_INTRINSICS" (Literal 1) st.

Definition posix_math_result (st : tu) : tu :=
  cinclude (is_defined "LABSOUND_PLATFORM_OSX" st
            || is_defined "LABSOUND_PLATFORM_LINUX" st) "math.h" st.

Definition kissfft_linux_result (st : tu) : tu :=
  cdefine (is_defined "LABSOUND_PLATFORM_LINUX" st)
    "WEBAUDIO_KISSFFT" (Literal 1) st.

Definition kissfft_osx_result (st : tu) : tu :=
  cdefine (is_defined "LABSOUND_PLATFORM_OSX" st)
    "WEBAUDIO_KISSFFT" (Literal 1) st.

(** The unit after the header, when the header is met for the first time
    and line 28 is well-formed: every decision is read off the unit [st]
    in which the header starts. *)
Definition resolved (st : tu) : tu :=
  let l := linux_like st in
  let w := negb l && windows_like st in
  let o := negb l && negb w && osx_like st in
  let a32 := arch32_like st in
  let a64 := negb a32 && arch64_like st in
  let c := is_defined "__clang__" st in
  let g := negb c && is_defined "__GNUC__" st in
  let v := negb c && negb g && is_defined "_MSC_VER" st in
  let vs := v || is_defined "LABSOUND_COMPILER_VISUAL_STUDIO" st in
  let lx := l || is_defined "LABSOUND_PLATFORM_LINUX" st in
  let ox := o || is_defined "LABSOUND_PLATFORM_OSX" st in
  cdefine ox "WEBAUDIO_KISSFFT" (Literal 1)
  (cdefine lx "WEBAUDIO_KISSFFT" (Literal 1)
  (cinclude (ox || lx) "math.h"
  (cdefine (is_defined "__ARM_NEON__" st) "ARM_NEON_INTRINSICS" (Literal 1)
  (cinclude vs "cmath"
  (cinclude vs "math.h"
  (cdefine vs "_USE_MATH_DEFINES" NoTokens
  (cinclude vs "stdint.h"
  (cdefine (sse2_wanted st) "__SSE2__" NoTokens
  (cdefine v "LABSOUND_COMPILER_VISUAL_STUDIO" (Literal 1)
  (cdefine g "LABSOUND_COMPILER_GCC" (Literal 1)
  (cdefine c "LABSOUND_COMPILER_CLANG" (Literal 1)
  (cdefine a64 "LABSOUND_ARCH_64" (Literal 1)
  (cdefine a32 "LABSOUND_ARCH_32" (Literal 1)
  (cdefine o "__MACOSX_CORE__" (Literal 1)
  (cdefine o "LABSOUND_PLATFORM_OSX" (Literal 1)
  (cdefine w "LABSOUND_PLATFORM_WINDOWS" (Literal 1)
  (cdefine l "LABSOUND_PLATFORM_LINUX" (Literal 1)
  (define "labsound_macros_h" NoTokens st)))))))))))))))))).

(** ** Some toolchains *)

(** GCC for Linux on x86-64; the compiler predefines __SSE2__. *)
Definition gcc_linux_x86_64 : gmap string body :=
  list_to_map
    [ ("__linux", Literal 1); ("__linux__", Literal 1); ("__unix", Literal 1);
      ("__GNUC__", Literal 13); ("__x86_64", Literal 1);
      ("__x86_64__", Literal 1); ("__amd64", Literal 1);
      ("__amd64__", Literal 1); ("__SSE2__", Literal 1) ].

(** Visual Studio for 64-bit Windows. *)
Definition msvc_x64 : gmap string body :=
  list_to_map
    [ ("_WIN32", Literal 1); ("_WIN64", Literal 1); ("_MSC_VER", Literal 1900);
      ("_M_X64", Literal 100); ("_M_AMD64", Literal 100) ].

(** Visual Studio for 32-bit Windows, built with /arch:SSE2. *)
Definition msvc_x86 : gmap string body :=
  list_to_map
    [ ("_WIN32", Literal 1); ("_MSC_VER", Literal 1900);
      ("_M_IX86_FP", Literal 2) ].

(** clang-cl: Clang that stands in for Visual Studio. *)
Definition clang_cl : gmap string body :=
  list_to_map
    [ ("_WIN32", Literal 1); ("_WIN64", Literal 1); ("_MSC_VER", Literal 1900);
      ("__clang__", Literal 1); ("_M_X64", Literal 100);
      ("_M_AMD64", Literal 100); ("__SSE2__", Literal 1) ].

(** Clang for macOS on Apple silicon. *)
Definition clang_macos_arm64 : gmap string body :=
  list_to_map
    [ ("__APPLE__", Literal 1); ("__clang__", Literal 1);
      ("__GNUC__", Literal 4); ("__ARM_NEON__", Literal 1) ].

(** GCC for Linux with a Windows and a macOS symbol set on top. *)
Definition linux_and_others : gmap string body :=
  <["_WIN32" := Literal 1]> (<["__APPLE__" := Literal 1]> gcc_linux_x86_64).

(** Visual Studio with the NEON symbol, and with a symbol that the header
    does not test. *)
Definition msvc_x64_neon : gmap string body :=
  <["__ARM_NEON__" := Literal 1]> msvc_x64.

Definition msvc_x64_ndebug : gmap string body :=
  <["NDEBUG" := NoTokens]> msvc_x64.

(** A 32-bit build for Windows in which a 64-bit symbol is set as well. *)
Definition mixed_width : gmap string body :=
  list_to_map
    [ ("_WIN32", Literal 1); ("__i386__", Literal 1);
      ("__x86_64__", Literal 1) ].

(** ** The unit before and after *)

(** The header goes through: it is skipped by its guard, or line 28 is
    well-formed. *)
Definition accepted (st : tu) : bool :=
  is_defined "labsound_macros_h" st || numeric st.

(** [#define n b] would change the body that [n] has. *)
Definition redefines (n : string) (b : body) (st : tu) : bool :=
  match macros st !! n with
  | Some b' => negb (bool_decide (b' = b))
  | None => false
  end.

(** [st'] is [st] with more in it: only names of the header differ, no
    macro is lost, and the inclusions and the diagnostics of [st] come
    first in those of [st']. *)
Definition extends (st st' : tu) : Prop :=
  same_inputs st st'
  ∧ (∀ k, is_defined k st = true → is_defined k st' = true)
  ∧ included st `prefix_of` included st'
  ∧ diagnostics st `prefix_of` diagnostics st'.

(** Visual Studio for Windows, in a build that sets the Linux flag itself. *)
Definition msvc_x64_forced_linux : gmap string body :=
  <["LABSOUND_PLATFORM_LINUX" := Literal 1]> msvc_x64.

(** Visual Studio for Windows, in a build that sets _USE_MATH_DEFINES to 1. *)
Definition msvc_x64_math_defines : gmap string body :=
  <["_USE_MATH_DEFINES" := Literal 1]> msvc_x64.

(** Two symbol sets define the same ones of the symbols that the header
    tests and of the two foreign names, whatever bodies they give them, and
    give the two operands of line 28 the same value. *)
Definition same_tests (m m' : gmap string body) : bool :=
  forallb (λ n, Bool.eqb (is_defined n (start m')) (is_defined n (start m)))
    (input_names ++ foreign_names)
  && bool_decide (ident "_M_IX86_FP" (start m') = ident "_M_IX86_FP" (start m))
  && bool_decide (ident "_M_AMD64" (start m') = ident "_M_AMD64" (start m)).

(** Visual Studio for 64-bit Windows again, an older one, with other
    bodies for the same symbols. *)
Definition msvc_x64_other_bodies : gmap string body :=
  list_to_map
    [ ("_WIN32", NoTokens); ("_WIN64", Literal 0); ("_MSC_VER", Literal 1700);
      ("_M_X64", Literal 1); ("_M_AMD64", Literal 100) ].

(** ** Expressions and directives, step by step *)

Lemma truth_b2z (b : bool) : truth (Z.b2z b) = b.
Proof. by destruct b. Qed.

Lemma If_bool c b g r st :
  c st = Some (Z.b2z b) → If c g r st = if b then g st else r st.
Proof. unfold If. intros ->. simpl. by rewrite truth_b2z. Qed.

Lemma e_or_bool a b x y st :
  a st = Some (Z.b2z x) → b st = Some (Z.b2z y) →
  (a || b)%E st = Some (Z.b2z (x || y)).
Proof. unfold e_or. intros -> ->. simpl. by rewrite !truth_b2z. Qed.

Lemma defined_bool n st : defined n st = Some (Z.b2z (is_defined n st)).
Proof. reflexivity. Qed.

Create HintDb cond.
#[local] Hint Resolve e_or_bool defined_bool : cond.

Lemma platform_eq st : platform st = Some (platform_result st).
Proof.
  unfold platform, platform_result.
  rewrite (If_bool _ (linux_like st)) by (unfold linux_like; auto 10 with cond).
  destruct (linux_like st); [done|].
  rewrite (If_bool _ (windows_like st))
    by (unfold windows_like; auto 10 with cond).
  destruct (windows_like st); [done|].
  rewrite (If_bool _ (osx_like st)) by (unfold osx_like; auto 10 with cond).
  by destruct (osx_like st).
Qed.

Lemma arch_eq st : arch st = Some (arch_result st).
Proof.
  unfold arch, arch_result.
  rewrite (If_bool _ (arch32_like st))
    by (unfold arch32_like; auto 10 with cond).
  destruct (arch32_like st); [done|].
  rewrite (If_bool _ (arch64_like st))
    by (unfold arch64_like; auto 10 with cond).
  by destruct (arch64_like st).
Qed.

Lemma compiler_eq st : compiler st = Some (compiler_result st).
Proof.
  unfold compiler, compiler_result.
  rewrite (If_bool _ (is_defined "__clang__" st)) by auto with cond.
  destruct (is_defined "__clang__" st); [done|].
  rewrite (If_bool _ (is_defined "__GNUC__" st)) by auto with cond.
  destruct (is_defined "__GNUC__" st); [done|].
  rewrite (If_bool _ (is_defined "_MSC_VER" st)) by auto with cond.
  by destruct (is_defined "_MSC_VER" st).
Qed.

Lemma msvc_shims_eq st : msvc_shims st = Some (msvc_shims_result st).
Proof.
  unfold msvc_shims, msvc_shims_result.
  rewrite (If_bool _ (is_defined "LABSOUND_COMPILER_VISUAL_STUDIO" st))
    by auto with cond.
  by destruct (is_defined "LABSOUND_COMPILER_VISUAL_STUDIO" st).
Qed.

Lemma neon_eq st : neon st = Some (neon_result st).
Proof.
  unfold neon, neon_result.
  rewrite (If_bool _ (is_defined "__ARM_NEON__" st)) by auto with cond.
  by destruct (is_defined "__ARM_NEON__" st).
Qed.

Lemma posix_math_eq st : posix_math st = Some (posix_math_result st).
Proof.
  unfold posix_math, posix_math_result.
  rewrite (If_bool _ (is_defined "LABSOUND_PLATFORM_OSX" st
                      || is_defined "LABSOUND_PLATFORM_LINUX" st))
    by auto with cond.
  by destruct (_ || _).
Qed.

Lemma kissfft_linux_eq st : kissfft_linux st = Some (kissfft_linux_result st).
Proof.
  unfold kissfft_linux, kissfft_linux_result.
  rewrite (If_bool _ (is_defined "LABSOUND_PLATFORM_LINUX" st))
    by auto with cond.
  by destruct (is_defined "LABSOUND_PLATFORM_LINUX" st).
Qed.

Lemma kissfft_osx_eq st : kissfft_osx st = Some (kissfft_osx_result st).
Proof.
  unfold kissfft_osx, kissfft_osx_result.
  rewrite (If_bool _ (is_defined "LABSOUND_PLATFORM_OSX" st))
    by auto with cond.
  by destruct (is_defined "LABSOUND_PLATFORM_OSX" st).
Qed.

Lemma sse2_eq st : numeric st = true → sse2 st = Some (sse2_result st).
Proof.
  unfold numeric, has_value, sse2, sse2_result, sse2_wanted, value.
  unfold If, e_or, e_and, e_ge, num, defined.
  destruct (ident "_M_IX86_FP" st) as [fp|]; [|done].
  destruct (ident "_M_AMD64" st) as [amd|]; [|done].
  intros _. simpl. rewrite !truth_b2z. by destruct (_ || _).
Qed.

Lemma sse2_ill_formed st : numeric st = false → sse2 st = None.
Proof.
  unfold numeric, has_value, sse2.
  unfold If, e_or, e_and, e_ge, num, defined.
  destruct (ident "_M_IX86_FP" st) as [fp|]; [|done].
  by destruct (ident "_M_AMD64" st) as [amd|].
Qed.

Lemma seq_Some (d1 d2 : directive) st st' :
  d1 st = Some st' → (d1 ;; d2)%D st = d2 st'.
Proof. unfold seq. by intros ->. Qed.

Lemma seq_total (d1 d2 : directive) (f : tu → tu) st :
  (∀ s, d1 s = Some (f s)) → (d1 ;; d2)%D st = d2 (f st).
Proof. intros H. by apply seq_Some. Qed.

(** ** Reading the macro table after a definition *)

Lemma lookup_define n b k st :
  macros (define n b st) !! k
  = if String.eqb n k then Some b else macros st !! k.
Proof.
  unfold define. destruct (String.eqb_spec n k) as [<-|Hne].
  - destruct (macros st !! n) as [b'|] eqn:Hn; simpl.
    + destruct (decide (b' = b)) as [->|]; simpl; [done|].
      apply lookup_insert_eq.
    + apply lookup_insert_eq.
  - destruct (macros st !! n) as [b'|] eqn:Hn; simpl.
    + destruct (decide (b' = b)); simpl; [done|]. by apply lookup_insert_ne.
    + by apply lookup_insert_ne.
Qed.

Lemma lookup_cdefine c n b k st :
  macros (cdefine c n b st) !! k
  = if c && String.eqb n k then Some b else macros st !! k.
Proof. destruct c; simpl; [apply lookup_define | done]. Qed.

Lemma macros_cinclude c h st : macros (cinclude c h st) = macros st.
Proof. by destruct c. Qed.

Lemma is_defined_define k n b st :
  is_defined k (define n b st) = String.eqb n k || is_defined k st.
Proof. unfold is_defined. rewrite lookup_define. by destruct (String.eqb n k). Qed.

Lemma is_defined_cdefine k c n b st :
  is_defined k (cdefine c n b st) = c && String.eqb n k || is_defined k st.
Proof. destruct c; simpl; [apply is_defined_define | done]. Qed.

Lemma is_defined_cinclude k c h st :
  is_defined k (cinclude c h st) = is_defined k st.
Proof. by destruct c. Qed.

Lemma included_define n b st : included (define n b st) = included st.
Proof. unfold define. destruct (macros st !! n); [|done]. by destruct (decide _). Qed.

Lemma included_cdefine c n b st : included (cdefine c n b st) = included st.
Proof. destruct c; simpl; [apply included_define | done]. Qed.

Lemma included_cinclude c h st :
  included (cinclude c h st) = included st ++ (if c then [h] else []).
Proof. destruct c; simpl; [done | by rewrite app_nil_r]. Qed.

Lemma diagnostics_cinclude c h st :
  diagnostics (cinclude c h st) = diagnostics st.
Proof. by destruct c. Qed.

(** A definition is silent when the name is free, and when it repeats the
    definition that is there. *)
Lemma diagnostics_cdefine c n b st :
  macros st !! n = None ∨ macros st !! n = Some b →
  diagnostics (cdefine c n b st) = diagnostics st.
Proof.
  destruct c; simpl; [|done]. unfold define.
  intros [-> | ->]; [done|]. by rewrite decide_True.
Qed.

(** ** What the header leaves alone *)

Lemma same_inputs_refl st : same_inputs st st.
Proof. by intros k _. Qed.

Lemma same_inputs_cdefine st st' c n b :
  is_header_name n = true → same_inputs st st' →
  same_inputs st (cdefine c n b st').
Proof.
  intros Hn H k Hk. rewrite lookup_cdefine.
  destruct (String.eqb_spec n k) as [->|_]; [congruence|].
  rewrite andb_false_r. by apply H.
Qed.

Lemma same_inputs_define st st' n b :
  is_header_name n = true → same_inputs st st' →
  same_inputs st (define n b st').
Proof. apply (same_inputs_cdefine st st' true). Qed.

Lemma same_inputs_cinclude st st' c h :
  same_inputs st st' → same_inputs st (cinclude c h st').
Proof. intros H k Hk. rewrite macros_cinclude. by apply H. Qed.

Create HintDb frame.
#[local] Hint Resolve same_inputs_refl same_inputs_cdefine same_inputs_define
  same_inputs_cinclude : frame.
#[local] Hint Extern 1 (is_header_name _ = true) => reflexivity : frame.

Lemma input_not_header k : is_input_name k = true → is_header_name k = false.
Proof.
  unfold is_input_name. rewrite existsb_exists. intros (n & Hn & Heq).
  apply String.eqb_eq in Heq as ->.
  repeat (destruct Hn as [<-|Hn]; [reflexivity|]). destruct Hn.
Qed.

Lemma same_inputs_tested st st' : same_inputs st st' → same_tested st st'.
Proof. intros H k Hk. by apply H, input_not_header. Qed.

#[local] Hint Resolve same_inputs_tested : frame.

Section frame.
Variables st st' : tu.
Hypothesis Hsame : same_tested st st'.

Lemma is_defined_frame k :
  is_input_name k = true → is_defined k st' = is_defined k st.
Proof. intros Hk. unfold is_defined. by rewrite Hsame. Qed.

Lemma ident_frame k :
  is_input_name k = true → ident k st' = ident k st.
Proof. intros Hk. unfold ident. by rewrite Hsame. Qed.

Ltac frame := rewrite ?is_defined_frame, ?ident_frame by reflexivity.

Lemma linux_like_frame : linux_like st' = linux_like st.
Proof. unfold linux_like. by frame. Qed.

Lemma windows_like_frame : windows_like st' = windows_like st.
Proof. unfold windows_like. by frame. Qed.

Lemma osx_like_frame : osx_like st' = osx_like st.
Proof. unfold osx_like. by frame. Qed.

Lemma arch32_like_frame : arch32_like st' = arch32_like st.
Proof. unfold arch32_like. by frame. Qed.

Lemma arch64_like_frame : arch64_like st' = arch64_like st.
Proof. unfold arch64_like. by frame. Qed.

Lemma numeric_frame : numeric st' = numeric st.
Proof. unfold numeric, has_value. by frame. Qed.

Lemma sse2_wanted_frame : sse2_wanted st' = sse2_wanted st.
Proof. unfold sse2_wanted, value. by frame. Qed.
End frame.

(** ** The header in closed form *)

Lemma is_defined_cdefine_eq c n b st :
  is_defined n (cdefine c n b st) = c || is_defined n st.
Proof. by rewrite is_defined_cdefine, String.eqb_refl, andb_true_r. Qed.

Lemma is_defined_cdefine_ne k c n b st :
  String.eqb n k = false → is_defined k (cdefine c n b st) = is_defined k st.
Proof. intros H. by rewrite is_defined_cdefine, H, andb_false_r. Qed.

Lemma is_defined_define_ne k n b st :
  String.eqb n k = false → is_defined k (define n b st) = is_defined k st.
Proof. apply (is_defined_cdefine_ne k true). Qed.

Lemma lookup_cdefine_ne k c n b st :
  String.eqb n k = false → macros (cdefine c n b st) !! k = macros st !! k.
Proof. intros H. by rewrite lookup_cdefine, H, andb_false_r. Qed.

Lemma lookup_define_ne k n b st :
  String.eqb n k = false → macros (define n b st) !! k = macros st !! k.
Proof. apply (lookup_cdefine_ne k true). Qed.

Lemma lookup_cdefine_eq c n b st :
  macros (cdefine c n b st) !! n = if c then Some b else macros st !! n.
Proof. by rewrite lookup_cdefine, String.eqb_refl, andb_true_r. Qed.

Ltac read_table :=
  repeat first
    [ rewrite is_defined_cdefine_eq
    | rewrite is_defined_cdefine_ne by reflexivity
    | rewrite is_defined_define_ne by reflexivity
    | rewrite is_defined_cinclude
    | rewrite lookup_cdefine_eq
    | rewrite lookup_cdefine_ne by reflexivity
    | rewrite lookup_define_ne by reflexivity
    | rewrite macros_cinclude ].

(** Rewrites [is_defined k s], for a name [k] the header defines and a unit
    [s] on the way, into what it is in terms of the unit at the start. *)
Ltac read_output k :=
  match goal with
  | |- context [is_defined k ?s] =>
      is_var s;
      let H := fresh in
      eassert (is_defined k s = _) as H
        by (repeat match goal with x := _ : tu |- _ => subst x end;
            read_table; reflexivity);
      rewrite H; clear H
  end.

(** Names the unit [s] reached so far and records that the symbols the
    header tests are in it as they were in [st]. *)
Ltac name_state st s H T :=
  match goal with
  | |- seq _ _ ?x = _ => set (s := x)
  | |- _ ?x = _ => set (s := x)
  end;
  assert (same_inputs st s) as H by (subst s; auto 10 with frame);
  pose proof (same_inputs_tested _ _ H) as T.

Lemma labsound_macros_h_eq st :
  is_defined "labsound_macros_h" st = false → numeric st = true →
  labsound_macros_h st = Some (resolved st).
Proof.
  intros Hguard Hnum. unfold labsound_macros_h, Ifndef. rewrite Hguard.
  rewrite (seq_Some (Define _ _) _ st (define "labsound_macros_h" NoTokens st))
    by done.
  unfold resolved. cbv zeta.
  set (s1 := define "labsound_macros_h" NoTokens st).
  assert (same_inputs st s1) as H1 by (subst s1; auto with frame).
  pose proof (same_inputs_tested _ _ H1) as T1.
  (* lines 5-12 *)
  rewrite (seq_total _ _ _ _ platform_eq). unfold platform_result. cbv zeta.
  rewrite (linux_like_frame _ _ T1), (windows_like_frame _ _ T1),
    (osx_like_frame _ _ T1).
  name_state st s2 H2 T2.
  (* lines 14-18 *)
  rewrite (seq_total _ _ _ _ arch_eq). unfold arch_result. cbv zeta.
  rewrite (arch32_like_frame _ _ T2), (arch64_like_frame _ _ T2).
  name_state st s3 H3 T3.
  (* lines 20-26 *)
  rewrite (seq_total _ _ _ _ compiler_eq). unfold compiler_result. cbv zeta.
  rewrite !(is_defined_frame _ _ T3) by reflexivity.
  name_state st s4 H4 T4.
  (* lines 28-30 *)
  rewrite (seq_Some sse2 _ s4 (sse2_result s4))
    by (apply sse2_eq; by rewrite (numeric_frame _ _ T4)).
  unfold sse2_result. rewrite (sse2_wanted_frame _ _ T4).
  name_state st s5 H5 T5.
  (* lines 32-37 *)
  rewrite (seq_total _ _ _ _ msvc_shims_eq). unfold msvc_shims_result.
  cbv zeta. read_output "LABSOUND_COMPILER_VISUAL_STUDIO".
  name_state st s6 H6 T6.
  (* lines 39-41 *)
  rewrite (seq_total _ _ _ _ neon_eq). unfold neon_result.
  rewrite (is_defined_frame _ _ T6) by reflexivity.
  name_state st s7 H7 T7.
  (* lines 43-46 *)
  rewrite (seq_total _ _ _ _ posix_math_eq). unfold posix_math_result.
  read_output "LABSOUND_PLATFORM_OSX". read_output "LABSOUND_PLATFORM_LINUX".
  name_state st s8 H8 T8.
  (* lines 48-50 *)
  rewrite (seq_total _ _ _ _ kissfft_linux_eq). unfold kissfft_linux_result.
  read_output "LABSOUND_PLATFORM_LINUX".
  name_state st s9 H9 T9.
  (* lines 52-54 *)
  rewrite kissfft_osx_eq. unfold kissfft_osx_result.
  read_output "LABSOUND_PLATFORM_OSX".
  reflexivity.
Qed.

Lemma labsound_macros_h_again st :
  is_defined "labsound_macros_h" st = true → labsound_macros_h st = Some st.
Proof. intros H. unfold labsound_macros_h, Ifndef. by rewrite H. Qed.

Lemma labsound_macros_h_ill_formed st :
  is_defined "labsound_macros_h" st = false → numeric st = false →
  labsound_macros_h st = None.
Proof.
  intros Hguard Hnum. unfold labsound_macros_h, Ifndef. rewrite Hguard.
  rewrite (seq_Some (Define _ _) _ st (define "labsound_macros_h" NoTokens st))
    by done.
  rewrite (seq_total _ _ _ _ platform_eq), (seq_total _ _ _ _ arch_eq),
    (seq_total _ _ _ _ compiler_eq).
  unfold seq. rewrite sse2_ill_formed; [done|].
  erewrite numeric_frame; [exact Hnum|].
  unfold compiler_result, arch_result, platform_result.
  auto 20 with frame.
Qed.


(** ** The flags after the first inclusion *)

Lemma none_defined_spec names st n :
  none_defined names st = true → existsb (String.eqb n) names = true →
  is_defined n st = false.
Proof.
  unfold none_defined. rewrite forallb_forall, existsb_exists.
  intros H (k & Hk & Heq). apply String.eqb_eq in Heq as ->.
  apply negb_true_iff. by apply H.
Qed.

Lemma none_defined_app names names' st :
  none_defined (names ++ names') st = true →
  none_defined names st = true ∧ none_defined names' st = true.
Proof. unfold none_defined. rewrite forallb_app. apply andb_true_iff. Qed.

Lemma is_defined_false n st : is_defined n st = false → macros st !! n = None.
Proof. unfold is_defined. by destruct (macros st !! n). Qed.

Ltac use_own H :=
  rewrite ?(none_defined_spec own_names _ "labsound_macros_h" H eq_refl),
    ?(none_defined_spec own_names _ "LABSOUND_PLATFORM_LINUX" H eq_refl),
    ?(none_defined_spec own_names _ "LABSOUND_PLATFORM_WINDOWS" H eq_refl),
    ?(none_defined_spec own_names _ "LABSOUND_PLATFORM_OSX" H eq_refl),
    ?(none_defined_spec own_names _ "__MACOSX_CORE__" H eq_refl),
    ?(none_defined_spec own_names _ "LABSOUND_ARCH_32" H eq_refl),
    ?(none_defined_spec own_names _ "LABSOUND_ARCH_64" H eq_refl),
    ?(none_defined_spec own_names _ "LABSOUND_COMPILER_CLANG" H eq_refl),
    ?(none_defined_spec own_names _ "LABSOUND_COMPILER_GCC" H eq_refl),
    ?(none_defined_spec own_names _ "LABSOUND_COMPILER_VISUAL_STUDIO" H
        eq_refl),
    ?(none_defined_spec own_names _ "ARM_NEON_INTRINSICS" H eq_refl),
    ?(none_defined_spec own_names _ "WEBAUDIO_KISSFFT" H eq_refl).

Section first_inclusion.
Variable st : tu.
Hypothesis Hown : none_defined own_names st = true.

Ltac flag :=
  unfold resolved; cbv zeta; read_table; use_own Hown; rewrite ?orb_false_r.

Lemma resolved_guard : is_defined "labsound_macros_h" (resolved st) = true.
Proof. unfold resolved; cbv zeta; read_table. apply is_defined_define. Qed.

Lemma resolved_LINUX :
  is_defined "LABSOUND_PLATFORM_LINUX" (resolved st) = linux_like st.
Proof. by flag. Qed.

Lemma resolved_WINDOWS :
  is_defined "LABSOUND_PLATFORM_WINDOWS" (resolved st)
  = negb (linux_like st) && windows_like st.
Proof. by flag. Qed.

Lemma resolved_OSX :
  is_defined "LABSOUND_PLATFORM_OSX" (resolved st)
  = negb (linux_like st) && negb (windows_like st) && osx_like st.
Proof. flag. by destruct (linux_like st), (windows_like st). Qed.

Lemma resolved_MACOSX_CORE :
  is_defined "__MACOSX_CORE__" (resolved st)
  = is_defined "LABSOUND_PLATFORM_OSX" (resolved st).
Proof. by flag. Qed.

Lemma resolved_MACOSX_CORE_body :
  is_defined "LABSOUND_PLATFORM_OSX" (resolved st) = true →
  macros (resolved st) !! "__MACOSX_CORE__" = Some (Literal 1).
Proof. flag. by intros ->. Qed.

Lemma resolved_ARCH_32 :
  is_defined "LABSOUND_ARCH_32" (resolved st) = arch32_like st.
Proof. by flag. Qed.

Lemma resolved_ARCH_64 :
  is_defined "LABSOUND_ARCH_64" (resolved st)
  = negb (arch32_like st) && arch64_like st.
Proof. by flag. Qed.

Lemma resolved_CLANG :
  is_defined "LABSOUND_COMPILER_CLANG" (resolved st)
  = is_defined "__clang__" st.
Proof. by flag. Qed.

Lemma resolved_GCC :
  is_defined "LABSOUND_COMPILER_GCC" (resolved st)
  = negb (is_defined "__clang__" st) && is_defined "__GNUC__" st.
Proof. by flag. Qed.

Lemma resolved_VISUAL_STUDIO :
  is_defined "LABSOUND_COMPILER_VISUAL_STUDIO" (resolved st)
  = negb (is_defined "__clang__" st) && negb (is_defined "__GNUC__" st)
    && is_defined "_MSC_VER" st.
Proof.
  flag. by destruct (is_defined "__clang__" st), (is_defined "__GNUC__" st).
Qed.

(** __SSE2__ stays defined when it was, whatever line 28 says. *)
Lemma resolved_SSE2 :
  is_defined "__SSE2__" (resolved st)
  = sse2_wanted st || is_defined "__SSE2__" st.
Proof. by flag. Qed.

Lemma resolved_SSE2_body :
  macros (resolved st) !! "__SSE2__"
  = if sse2_wanted st then Some NoTokens else macros st !! "__SSE2__".
Proof. by flag. Qed.

Lemma resolved_USE_MATH_DEFINES :
  is_defined "_USE_MATH_DEFINES" (resolved st)
  = is_defined "LABSOUND_COMPILER_VISUAL_STUDIO" (resolved st)
    || is_defined "_USE_MATH_DEFINES" st.
Proof. by flag. Qed.

Lemma resolved_USE_MATH_DEFINES_body :
  macros (resolved st) !! "_USE_MATH_DEFINES"
  = if is_defined "LABSOUND_COMPILER_VISUAL_STUDIO" (resolved st)
    then Some NoTokens else macros st !! "_USE_MATH_DEFINES".
Proof. by flag. Qed.

Lemma resolved_NEON :
  is_defined "ARM_NEON_INTRINSICS" (resolved st)
  = is_defined "__ARM_NEON__" st.
Proof. by flag. Qed.

Lemma resolved_KISSFFT :
  is_defined "WEBAUDIO_KISSFFT" (resolved st)
  = is_defined "LABSOUND_PLATFORM_LINUX" (resolved st)
    || is_defined "LABSOUND_PLATFORM_OSX" (resolved st).
Proof. flag. apply orb_comm. Qed.

(** The inclusions: the three of lines 33-36 with the Visual Studio flag,
    then the one of line 44 with the Linux or the macOS flag. *)
Lemma resolved_included :
  included (resolved st)
  = included st
    ++ (if is_defined "LABSOUND_COMPILER_VISUAL_STUDIO" (resolved st)
        then ["stdint.h"; "math.h"; "cmath"] else [])
    ++ (if is_defined "LABSOUND_PLATFORM_OSX" (resolved st)
           || is_defined "LABSOUND_PLATFORM_LINUX" (resolved st)
        then ["math.h"] else []).
Proof.
  flag. unfold resolved; cbv zeta.
  repeat first [ rewrite included_cdefine | rewrite included_cinclude
               | rewrite included_define ].
  use_own Hown. rewrite ?orb_false_r, <- !app_assoc.
  by destruct (negb (is_defined "__clang__" st) && _ && _).
Qed.

(** Nothing is redefined, so nothing is diagnosed, when the two foreign
    names are free as well. *)
Lemma resolved_diagnostics :
  none_defined foreign_names st = true →
  diagnostics (resolved st) = diagnostics st.
Proof.
  intros Hforeign.
  assert (∀ n, is_header_name n = true → macros st !! n = None) as Hfree.
  { intros n Hn. apply is_defined_false. unfold is_header_name in Hn.
    unfold header_names in Hn. rewrite existsb_app in Hn.
    apply orb_true_iff in Hn as [Hn|Hn];
      eauto using none_defined_spec. }
  unfold resolved; cbv zeta.
  repeat first
    [ rewrite diagnostics_cinclude
    | rewrite diagnostics_cdefine
    | apply (diagnostics_cdefine true) ];
    read_table;
    try (left; by apply Hfree).
  destruct (linux_like st || _); [by right|].
  left. by apply Hfree.
Qed.
End first_inclusion.

Lemma resolved_flags st :
  none_defined own_names st = true →
  flags_of (resolved st) = flags_from_symbols st.
Proof.
  intros H. unfold flags_of, flags_from_symbols. cbv zeta.
  rewrite (resolved_KISSFFT st H), (resolved_USE_MATH_DEFINES st H),
    (resolved_MACOSX_CORE st H), (resolved_LINUX st H),
    (resolved_WINDOWS st H), (resolved_OSX st H), (resolved_ARCH_32 st H),
    (resolved_ARCH_64 st H), (resolved_CLANG st H), (resolved_GCC st H),
    (resolved_VISUAL_STUDIO st H), (resolved_SSE2 st), (resolved_NEON st H).
  reflexivity.
Qed.

Lemma flags_from_symbols_frame st st' :
  same_tested st st' →
  is_defined "__SSE2__" st' = is_defined "__SSE2__" st →
  is_defined "_USE_MATH_DEFINES" st' = is_defined "_USE_MATH_DEFINES" st →
  flags_from_symbols st' = flags_from_symbols st.
Proof.
  intros H Hsse Humd. unfold flags_from_symbols.
  rewrite (linux_like_frame _ _ H), (windows_like_frame _ _ H),
    (osx_like_frame _ _ H), (arch32_like_frame _ _ H),
    (arch64_like_frame _ _ H), (sse2_wanted_frame _ _ H), Hsse, Humd.
  by rewrite !(is_defined_frame _ _ H) by reflexivity.
Qed.

(** ** Symbol sets *)

Lemma resolve_eq m :
  toolchain_symbols m = true → numeric (start m) = true →
  resolve m = Some (resolved (start m)).
Proof.
  intros Hown Hnum. apply labsound_macros_h_eq; [|done].
  by apply (none_defined_spec own_names).
Qed.

Lemma same_symbols_spec m m' n :
  same_symbols m m' = true →
  existsb (String.eqb n) (input_names ++ foreign_names) = true →
  m' !! n = m !! n.
Proof.
  unfold same_symbols. rewrite forallb_forall, existsb_exists.
  intros H (k & Hk & Heq). apply String.eqb_eq in Heq as ->. symmetry.
  apply (bool_decide_eq_true_1 (m !! k = m' !! k)). by apply H.
Qed.

Lemma same_symbols_tested m m' :
  same_symbols m m' = true → same_tested (start m) (start m').
Proof.
  intros H k Hk. apply (same_symbols_spec m m' k H).
  rewrite existsb_app. apply orb_true_iff. by left.
Qed.

Lemma unrecognised_tested m :
  none_defined input_names (start m) = true → same_tested (start ∅) (start m).
Proof.
  intros H k Hk. simpl. rewrite lookup_empty.
  apply (is_defined_false k (start m)). by apply (none_defined_spec input_names).
Qed.

(** Line 28, read on the macro table. *)
Lemma value_at_least_2 n st :
  has_value n st = true →
  truth (value n st) && (2 <=? value n st) = true
  ↔ ∃ z, macros st !! n = Some (Literal z) ∧ 2 ≤ z.
Proof.
  unfold has_value, value, ident.
  destruct (macros st !! n) as [[|z]|]; [done| |].
  - destruct (fits z); [|done]. intros _. simpl. unfold truth.
    rewrite andb_true_iff, negb_true_iff, Z.eqb_neq, Z.leb_le. split.
    + intros [_ H]. eauto.
    + intros (z' & [= <-] & H). lia.
  - intros _. simpl. split; [done|]. by intros (z & ? & _).
Qed.

Lemma value_nonzero n st :
  has_value n st = true →
  truth (value n st) = true
  ↔ ∃ z, macros st !! n = Some (Literal z) ∧ z ≠ 0.
Proof.
  unfold has_value, value, ident.
  destruct (macros st !! n) as [[|z]|]; [done| |].
  - destruct (fits z); [|done]. intros _. simpl. unfold truth.
    rewrite negb_true_iff, Z.eqb_neq. split.
    + intros H. eauto.
    + by intros (z' & [= <-] & H).
  - intros _. simpl. split; [done|]. by intros (z & ? & _).
Qed.

Lemma sse2_wanted_spec st :
  numeric st = true →
  sse2_wanted st = true ↔
    (∃ z, macros st !! "_M_IX86_FP" = Some (Literal z) ∧ 2 ≤ z)
    ∨ (∃ z, macros st !! "_M_AMD64" = Some (Literal z) ∧ z ≠ 0)
    ∨ is_defined "_M_X64" st = true.
Proof.
  unfold numeric, sse2_wanted. intros [Hfp Hamd]%andb_true_iff.
  rewrite !orb_true_iff, (value_at_least_2 _ _ Hfp), (value_nonzero _ _ Hamd).
  tauto.
Qed.

(** With none of the tested symbols and none of the header's names, the
    header only defines its guard. *)
Lemma resolved_unrecognised m :
  unrecognised m = true →
  resolved (start m) = define "labsound_macros_h" NoTokens (start m).
Proof.
  intros [Hin [Hown Hforeign]%none_defined_app]%none_defined_app.
  pose proof (unrecognised_tested m Hin) as Ht.
  unfold resolved. cbv zeta.
  rewrite (linux_like_frame _ _ Ht), (windows_like_frame _ _ Ht),
    (osx_like_frame _ _ Ht), (arch32_like_frame _ _ Ht),
    (arch64_like_frame _ _ Ht), (sse2_wanted_frame _ _ Ht).
  rewrite !(is_defined_frame _ _ Ht "__clang__" eq_refl),
    !(is_defined_frame _ _ Ht "__GNUC__" eq_refl),
    !(is_defined_frame _ _ Ht "_MSC_VER" eq_refl),
    !(is_defined_frame _ _ Ht "__ARM_NEON__" eq_refl).
  use_own Hown.
  change (linux_like (start ∅)) with false.
  change (windows_like (start ∅)) with false.
  change (osx_like (start ∅)) with false.
  change (arch32_like (start ∅)) with false.
  change (arch64_like (start ∅)) with false.
  change (sse2_wanted (start ∅)) with false.
  change (is_defined "__clang__" (start ∅)) with false.
  change (is_defined "__GNUC__" (start ∅)) with false.
  change (is_defined "_MSC_VER" (start ∅)) with false.
  change (is_defined "__ARM_NEON__" (start ∅)) with false.
  reflexivity.
Qed.

(** ** What the specification says of the header *)

(** C1.  The embedded-FFT flag WEBAUDIO_KISSFFT is set if and only if the
    platform resolved to Linux or to macOS; it stays unset when the
    platform resolved to Windows and when no platform was detected. *)
Theorem kissfft_iff_linux_or_osx (m : gmap string body) :
  toolchain_symbols m = true → numeric (start m) = true →
  ∃ out, resolve m = Some out
    ∧ (is_defined "WEBAUDIO_KISSFFT" out = true
       ↔ is_defined "LABSOUND_PLATFORM_LINUX" out = true
         ∨ is_defined "LABSOUND_PLATFORM_OSX" out = true)
    ∧ (is_defined "LABSOUND_PLATFORM_WINDOWS" out = true →
       is_defined "WEBAUDIO_KISSFFT" out = false)
    ∧ (is_defined "LABSOUND_PLATFORM_LINUX" out = false →
       is_defined "LABSOUND_PLATFORM_WINDOWS" out = false →
       is_defined "LABSOUND_PLATFORM_OSX" out = false →
       is_defined "WEBAUDIO_KISSFFT" out = false).
Proof.
  intros Hown Hnum. exists (resolved (start m)).
  split; [by apply resolve_eq|].
  rewrite (resolved_KISSFFT _ Hown), orb_true_iff. split; [done|].
  rewrite (resolved_LINUX _ Hown), (resolved_WINDOWS _ Hown),
    (resolved_OSX _ Hown).
  split.
  - destruct (linux_like (start m)); [done|].
    by destruct (windows_like (start m)).
  - by intros -> _ ->.
Qed.

Lemma kissfft_iff_linux_or_osx_witness :
  toolchain_symbols gcc_linux_x86_64 = true
  ∧ numeric (start gcc_linux_x86_64) = true
  ∧ ∃ out, resolve gcc_linux_x86_64 = Some out
    ∧ (is_defined "WEBAUDIO_KISSFFT" out = true
       ↔ is_defined "LABSOUND_PLATFORM_LINUX" out = true
         ∨ is_defined "LABSOUND_PLATFORM_OSX" out = true)
    ∧ (is_defined "LABSOUND_PLATFORM_WINDOWS" out = true →
       is_defined "WEBAUDIO_KISSFFT" out = false)
    ∧ (is_defined "LABSOUND_PLATFORM_LINUX" out = false →
       is_defined "LABSOUND_PLATFORM_WINDOWS" out = false →
       is_defined "LABSOUND_PLATFORM_OSX" out = false →
       is_defined "WEBAUDIO_KISSFFT" out = false).
Proof.
  split; [reflexivity|]. split; [reflexivity|].
  apply (kissfft_iff_linux_or_osx gcc_linux_x86_64); reflexivity.
Defined.

(** C2.  The platform is resolved by the first group that matches: the
    Linux symbols are tried first, then the Windows ones, then the macOS
    ones.  So when a Linux symbol is present together with a Windows or a
    macOS symbol, LABSOUND_PLATFORM_LINUX is set and the two others are
    not. *)
Theorem platform_first_match (m : gmap string body) :
  toolchain_symbols m = true → numeric (start m) = true →
  ∃ out, resolve m = Some out
    ∧ is_defined "LABSOUND_PLATFORM_LINUX" out = linux_like (start m)
    ∧ is_defined "LABSOUND_PLATFORM_WINDOWS" out
      = negb (linux_like (start m)) && windows_like (start m)
    ∧ is_defined "LABSOUND_PLATFORM_OSX" out
      = negb (linux_like (start m)) && negb (windows_like (start m))
        && osx_like (start m)
    ∧ (linux_like (start m) = true →
       windows_like (start m) = true ∨ osx_like (start m) = true →
       is_defined "LABSOUND_PLATFORM_LINUX" out = true
       ∧ is_defined "LABSOUND_PLATFORM_WINDOWS" out = false
       ∧ is_defined "LABSOUND_PLATFORM_OSX" out = false).
Proof.
  intros Hown Hnum. exists (resolved (start m)).
  split; [by apply resolve_eq|].
  rewrite (resolved_LINUX _ Hown), (resolved_WINDOWS _ Hown),
    (resolved_OSX _ Hown).
  do 3 (split; [reflexivity|]). by intros -> _.
Qed.

Lemma platform_first_match_witness :
  toolchain_symbols linux_and_others = true
  ∧ numeric (start linux_and_others) = true
  ∧ linux_like (start linux_and_others) = true
  ∧ (windows_like (start linux_and_others) = true
     ∨ osx_like (start linux_and_others) = true)
  ∧ ∃ out, resolve linux_and_others = Some out
    ∧ is_defined "LABSOUND_PLATFORM_LINUX" out = true
    ∧ is_defined "LABSOUND_PLATFORM_WINDOWS" out = false
    ∧ is_defined "LABSOUND_PLATFORM_OSX" out = false.
Proof.
  assert (toolchain_symbols linux_and_others = true) as Hown by reflexivity.
  assert (numeric (start linux_and_others) = true) as Hnum by reflexivity.
  assert (linux_like (start linux_and_others) = true) as Hlinux
    by reflexivity.
  assert (windows_like (start linux_and_others) = true
          ∨ osx_like (start linux_and_others) = true) as Hother
    by (left; reflexivity).
  repeat (split; [assumption|]).
  destruct (platform_first_match linux_and_others Hown Hnum)
    as (out & Hout & _ & _ & _ & H).
  exists out. split; [exact Hout|]. exact (H Hlinux Hother).
Defined.

(** C3, as stated, fails for clang-cl: _MSC_VER is present, yet the
    compiler resolves to Clang, LABSOUND_COMPILER_VISUAL_STUDIO stays unset
    and none of the shims of lines 33-36 is pulled in. *)
Lemma msc_ver_with_clang_counterexample :
  toolchain_symbols clang_cl = true
  ∧ numeric (start clang_cl) = true
  ∧ is_defined "_MSC_VER" (start clang_cl) = true
  ∧ (is_defined "LABSOUND_COMPILER_VISUAL_STUDIO" <$> resolve clang_cl)
    = Some false
  ∧ (is_defined "LABSOUND_COMPILER_CLANG" <$> resolve clang_cl) = Some true
  ∧ (is_defined "_USE_MATH_DEFINES" <$> resolve clang_cl) = Some false
  ∧ (included <$> resolve clang_cl) = Some [].
Proof. repeat split; vm_compute; reflexivity. Qed.

(** C3, amended.  When _MSC_VER is present and neither __clang__ nor
    __GNUC__ is, LABSOUND_COMPILER_VISUAL_STUDIO is set and the shims of
    lines 33-36 are pulled in: stdint.h, _USE_MATH_DEFINES, math.h and
    cmath.  Conversely the header pulls them in only when the compiler
    resolved to Visual Studio: stdint.h and cmath are included exactly
    then, math.h is included otherwise only by line 44 for Linux and macOS,
    and _USE_MATH_DEFINES is otherwise left as it was. *)
Theorem msvc_shims_iff_visual_studio (m : gmap string body) :
  toolchain_symbols m = true → numeric (start m) = true →
  ∃ out, resolve m = Some out
    ∧ (is_defined "_MSC_VER" (start m) = true →
       is_defined "__clang__" (start m) = false →
       is_defined "__GNUC__" (start m) = false →
       is_defined "LABSOUND_COMPILER_VISUAL_STUDIO" out = true)
    ∧ (is_defined "LABSOUND_COMPILER_VISUAL_STUDIO" out = true →
       is_defined "_MSC_VER" (start m) = true)
    ∧ included out
      = (if is_defined "LABSOUND_COMPILER_VISUAL_STUDIO" out
         then ["stdint.h"; "math.h"; "cmath"] else [])
        ++ (if is_defined "LABSOUND_PLATFORM_OSX" out
               || is_defined "LABSOUND_PLATFORM_LINUX" out
            then ["math.h"] else [])
    ∧ macros out !! "_USE_MATH_DEFINES"
      = (if is_defined "LABSOUND_COMPILER_VISUAL_STUDIO" out
         then Some NoTokens else m !! "_USE_MATH_DEFINES").
Proof.
  intros Hown Hnum. exists (resolved (start m)).
  split; [by apply resolve_eq|].
  rewrite (resolved_included _ Hown), (resolved_USE_MATH_DEFINES_body _ Hown).
  rewrite (resolved_VISUAL_STUDIO _ Hown).
  split; [by intros -> -> ->|]. split; [|done].
  by intros [_ ?]%andb_true_iff.
Qed.

Lemma msvc_shims_iff_visual_studio_witness :
  toolchain_symbols msvc_x64 = true
  ∧ numeric (start msvc_x64) = true
  ∧ ∃ out, resolve msvc_x64 = Some out
    ∧ (is_defined "_MSC_VER" (start msvc_x64) = true →
       is_defined "__clang__" (start msvc_x64) = false →
       is_defined "__GNUC__" (start msvc_x64) = false →
       is_defined "LABSOUND_COMPILER_VISUAL_STUDIO" out = true)
    ∧ (is_defined "LABSOUND_COMPILER_VISUAL_STUDIO" out = true →
       is_defined "_MSC_VER" (start msvc_x64) = true)
    ∧ included out
      = (if is_defined "LABSOUND_COMPILER_VISUAL_STUDIO" out
         then ["stdint.h"; "math.h"; "cmath"] else [])
        ++ (if is_defined "LABSOUND_PLATFORM_OSX" out
               || is_defined "LABSOUND_PLATFORM_LINUX" out
            then ["math.h"] else [])
    ∧ macros out !! "_USE_MATH_DEFINES"
      = (if is_defined "LABSOUND_COMPILER_VISUAL_STUDIO" out
         then Some NoTokens else msvc_x64 !! "_USE_MATH_DEFINES").
Proof.
  split; [reflexivity|]. split; [reflexivity|].
  apply (msvc_shims_iff_visual_studio msvc_x64); reflexivity.
Defined.

(** C4, as stated, fails for GCC on x86-64: none of _M_IX86_FP, _M_AMD64
    and _M_X64 is present, yet __SSE2__ is set after the header, because
    the compiler had predefined it. *)
Lemma sse2_predefined_counterexample :
  toolchain_symbols gcc_linux_x86_64 = true
  ∧ numeric (start gcc_linux_x86_64) = true
  ∧ gcc_linux_x86_64 !! "_M_IX86_FP" = None
  ∧ gcc_linux_x86_64 !! "_M_AMD64" = None
  ∧ gcc_linux_x86_64 !! "_M_X64" = None
  ∧ (is_defined "__SSE2__" <$> resolve gcc_linux_x86_64) = Some true.
Proof. repeat split; vm_compute; reflexivity. Qed.

(** C4, amended.  After the header __SSE2__ is set if and only if it was
    predefined, or _M_IX86_FP has a value of at least 2, or _M_AMD64 has a
    value other than 0, or _M_X64 is defined.  The header itself defines
    it, with an empty body, exactly in the last three cases, which are
    combined by a plain or. *)
Theorem sse2_iff_predefined_or_wanted (m : gmap string body) :
  toolchain_symbols m = true → numeric (start m) = true →
  ∃ out, resolve m = Some out
    ∧ (is_defined "__SSE2__" out = true
       ↔ is_defined "__SSE2__" (start m) = true
         ∨ (∃ z, m !! "_M_IX86_FP" = Some (Literal z) ∧ 2 ≤ z)
         ∨ (∃ z, m !! "_M_AMD64" = Some (Literal z) ∧ z ≠ 0)
         ∨ is_defined "_M_X64" (start m) = true)
    ∧ ((∃ z, m !! "_M_IX86_FP" = Some (Literal z) ∧ 2 ≤ z)
       ∨ (∃ z, m !! "_M_AMD64" = Some (Literal z) ∧ z ≠ 0)
       ∨ is_defined "_M_X64" (start m) = true →
       macros out !! "__SSE2__" = Some NoTokens)
    ∧ (¬ ((∃ z, m !! "_M_IX86_FP" = Some (Literal z) ∧ 2 ≤ z)
          ∨ (∃ z, m !! "_M_AMD64" = Some (Literal z) ∧ z ≠ 0)
          ∨ is_defined "_M_X64" (start m) = true) →
       macros out !! "__SSE2__" = m !! "__SSE2__").
Proof.
  intros Hown Hnum. exists (resolved (start m)).
  split; [by apply resolve_eq|].
  rewrite resolved_SSE2, resolved_SSE2_body, orb_true_iff.
  pose proof (sse2_wanted_spec (start m) Hnum) as Hw. simpl in Hw.
  rewrite <- Hw. split; [tauto|].
  split.
  - by intros ->.
  - intros H. by destruct (sse2_wanted (start m)).
Qed.

Lemma sse2_iff_predefined_or_wanted_witness :
  toolchain_symbols msvc_x86 = true
  ∧ numeric (start msvc_x86) = true
  ∧ ∃ out, resolve msvc_x86 = Some out
    ∧ (is_defined "__SSE2__" out = true
       ↔ is_defined "__SSE2__" (start msvc_x86) = true
         ∨ (∃ z, msvc_x86 !! "_M_IX86_FP" = Some (Literal z) ∧ 2 ≤ z)
         ∨ (∃ z, msvc_x86 !! "_M_AMD64" = Some (Literal z) ∧ z ≠ 0)
         ∨ is_defined "_M_X64" (start msvc_x86) = true)
    ∧ ((∃ z, msvc_x86 !! "_M_IX86_FP" = Some (Literal z) ∧ 2 ≤ z)
       ∨ (∃ z, msvc_x86 !! "_M_AMD64" = Some (Literal z) ∧ z ≠ 0)
       ∨ is_defined "_M_X64" (start msvc_x86) = true →
       macros out !! "__SSE2__" = Some NoTokens)
    ∧ (¬ ((∃ z, msvc_x86 !! "_M_IX86_FP" = Some (Literal z) ∧ 2 ≤ z)
          ∨ (∃ z, msvc_x86 !! "_M_AMD64" = Some (Literal z) ∧ z ≠ 0)
          ∨ is_defined "_M_X64" (start msvc_x86) = true) →
       macros out !! "__SSE2__" = msvc_x86 !! "__SSE2__").
Proof.
  split; [reflexivity|]. split; [reflexivity|].
  apply (sse2_iff_predefined_or_wanted msvc_x86); reflexivity.
Defined.

(** C5.  When none of the symbols that the header tests is present (and
    none of the names it defines), the header goes through without a
    failure and without a diagnostic, every flag is left unset, nothing is
    included, and the macro table only gains the guard. *)
Theorem nothing_recognised_nothing_set (m : gmap string body) :
  unrecognised m = true →
  ∃ out, resolve m = Some out
    ∧ flags_of out = no_flags
    ∧ macros out = <["labsound_macros_h" := NoTokens]> m
    ∧ included out = []
    ∧ diagnostics out = [].
Proof.
  intros Hnone.
  pose proof Hnone as [Hin [Hown Hforeign]%none_defined_app]%none_defined_app.
  pose proof (unrecognised_tested m Hin) as Ht.
  assert (numeric (start m) = true) as Hnum
    by (by rewrite (numeric_frame _ _ Ht)).
  assert (macros (start m) !! "labsound_macros_h" = None) as Hguard
    by (by apply is_defined_false, (none_defined_spec own_names)).
  exists (resolved (start m)). split; [by apply resolve_eq|].
  split.
  { rewrite (resolved_flags _ Hown).
    rewrite (flags_from_symbols_frame (start ∅) (start m) Ht); [done| |].
    - by apply (none_defined_spec foreign_names _ "__SSE2__").
    - by apply (none_defined_spec foreign_names _ "_USE_MATH_DEFINES"). }
  rewrite (resolved_unrecognised m Hnone). unfold define. rewrite Hguard.
  done.
Qed.

Lemma nothing_recognised_nothing_set_witness :
  unrecognised ∅ = true
  ∧ ∃ out, resolve ∅ = Some out
    ∧ flags_of out = no_flags
    ∧ macros out = <["labsound_macros_h" := NoTokens]> ∅
    ∧ included out = []
    ∧ diagnostics out = [].
Proof.
  split; [reflexivity|].
  apply (nothing_recognised_nothing_set ∅); reflexivity.
Defined.

(** C6.  The word width is resolved by the first group that matches, the
    32-bit symbols first and the 64-bit ones second.  With a 64-bit symbol
    and no 32-bit symbol LABSOUND_ARCH_64 is set and LABSOUND_ARCH_32 is
    not; with a symbol of each kind LABSOUND_ARCH_32 is set and
    LABSOUND_ARCH_64 is not. *)
Theorem arch_first_match (m : gmap string body) :
  toolchain_symbols m = true → numeric (start m) = true →
  ∃ out, resolve m = Some out
    ∧ is_defined "LABSOUND_ARCH_32" out = arch32_like (start m)
    ∧ is_defined "LABSOUND_ARCH_64" out
      = negb (arch32_like (start m)) && arch64_like (start m)
    ∧ (arch64_like (start m) = true → arch32_like (start m) = false →
       is_defined "LABSOUND_ARCH_64" out = true
       ∧ is_defined "LABSOUND_ARCH_32" out = false)
    ∧ (arch32_like (start m) = true → arch64_like (start m) = true →
       is_defined "LABSOUND_ARCH_32" out = true
       ∧ is_defined "LABSOUND_ARCH_64" out = false).
Proof.
  intros Hown Hnum. exists (resolved (start m)).
  split; [by apply resolve_eq|].
  rewrite (resolved_ARCH_32 _ Hown), (resolved_ARCH_64 _ Hown).
  do 2 (split; [reflexivity|]). split; by intros -> ->.
Qed.

Lemma arch_first_match_witness :
  toolchain_symbols mixed_width = true
  ∧ numeric (start mixed_width) = true
  ∧ arch32_like (start mixed_width) = true
  ∧ arch64_like (start mixed_width) = true
  ∧ ∃ out, resolve mixed_width = Some out
    ∧ is_defined "LABSOUND_ARCH_32" out = true
    ∧ is_defined "LABSOUND_ARCH_64" out = false.
Proof.
  assert (toolchain_symbols mixed_width = true) as Hown by reflexivity.
  assert (numeric (start mixed_width) = true) as Hnum by reflexivity.
  assert (arch32_like (start mixed_width) = true) as H32 by reflexivity.
  assert (arch64_like (start mixed_width) = true) as H64 by reflexivity.
  repeat (split; [assumption|]).
  destruct (arch_first_match mixed_width Hown Hnum)
    as (out & Hout & _ & _ & _ & H).
  exists out. split; [exact Hout|]. exact (H H32 H64).
Defined.

Lemma at_most_one_of_three (a b c : bool) :
  a && b = false → a && c = false → b && c = false → at_most_one [a; b; c].
Proof. unfold at_most_one. destruct a, b, c; simpl; intros; done || lia. Qed.

(** C7.  In each group at most one flag is set: one platform, one word
    width, one compiler.  When __clang__ is present together with __GNUC__
    or _MSC_VER, only LABSOUND_COMPILER_CLANG is set. *)
Theorem one_flag_per_group (m : gmap string body) :
  toolchain_symbols m = true → numeric (start m) = true →
  ∃ out, resolve m = Some out
    ∧ at_most_one [ is_defined "LABSOUND_PLATFORM_LINUX" out;
                    is_defined "LABSOUND_PLATFORM_WINDOWS" out;
                    is_defined "LABSOUND_PLATFORM_OSX" out ]
    ∧ at_most_one [ is_defined "LABSOUND_ARCH_32" out;
                    is_defined "LABSOUND_ARCH_64" out ]
    ∧ at_most_one [ is_defined "LABSOUND_COMPILER_CLANG" out;
                    is_defined "LABSOUND_COMPILER_GCC" out;
                    is_defined "LABSOUND_COMPILER_VISUAL_STUDIO" out ]
    ∧ (is_defined "__clang__" (start m) = true →
       is_defined "__GNUC__" (start m) = true
       ∨ is_defined "_MSC_VER" (start m) = true →
       is_defined "LABSOUND_COMPILER_CLANG" out = true
       ∧ is_defined "LABSOUND_COMPILER_GCC" out = false
       ∧ is_defined "LABSOUND_COMPILER_VISUAL_STUDIO" out = false).
Proof.
  intros Hown Hnum. exists (resolved (start m)).
  split; [by apply resolve_eq|].
  rewrite (resolved_LINUX _ Hown), (resolved_WINDOWS _ Hown),
    (resolved_OSX _ Hown), (resolved_ARCH_32 _ Hown),
    (resolved_ARCH_64 _ Hown), (resolved_CLANG _ Hown),
    (resolved_GCC _ Hown), (resolved_VISUAL_STUDIO _ Hown).
  split; [|split; [|split]].
  - apply at_most_one_of_three;
      by destruct (linux_like (start m)), (windows_like (start m)).
  - unfold at_most_one. destruct (arch32_like (start m)); simpl; [lia|].
    destruct (arch64_like (start m)); simpl; lia.
  - apply at_most_one_of_three;
      by destruct (is_defined "__clang__" (start m)),
                  (is_defined "__GNUC__" (start m)).
  - by intros -> _.
Qed.

Lemma one_flag_per_group_witness :
  toolchain_symbols clang_macos_arm64 = true
  ∧ numeric (start clang_macos_arm64) = true
  ∧ ∃ out, resolve clang_macos_arm64 = Some out
    ∧ at_most_one [ is_defined "LABSOUND_PLATFORM_LINUX" out;
                    is_defined "LABSOUND_PLATFORM_WINDOWS" out;
                    is_defined "LABSOUND_PLATFORM_OSX" out ]
    ∧ at_most_one [ is_defined "LABSOUND_ARCH_32" out;
                    is_defined "LABSOUND_ARCH_64" out ]
    ∧ at_most_one [ is_defined "LABSOUND_COMPILER_CLANG" out;
                    is_defined "LABSOUND_COMPILER_GCC" out;
                    is_defined "LABSOUND_COMPILER_VISUAL_STUDIO" out ]
    ∧ (is_defined "__clang__" (start clang_macos_arm64) = true →
       is_defined "__GNUC__" (start clang_macos_arm64) = true
       ∨ is_defined "_MSC_VER" (start clang_macos_arm64) = true →
       is_defined "LABSOUND_COMPILER_CLANG" out = true
       ∧ is_defined "LABSOUND_COMPILER_GCC" out = false
       ∧ is_defined "LABSOUND_COMPILER_VISUAL_STUDIO" out = false).
Proof.
  split; [reflexivity|]. split; [reflexivity|].
  apply (one_flag_per_group clang_macos_arm64); reflexivity.
Defined.

(** C8.  ARM_NEON_INTRINSICS is set if and only if __ARM_NEON__ is present,
    and depends on nothing else: two symbol sets that agree on
    __ARM_NEON__ get the same flag, however they differ otherwise. *)
Theorem neon_iff_arm_neon (m m' : gmap string body) :
  toolchain_symbols m = true → numeric (start m) = true →
  toolchain_symbols m' = true → numeric (start m') = true →
  is_defined "__ARM_NEON__" (start m') = is_defined "__ARM_NEON__" (start m) →
  ∃ out out', resolve m = Some out ∧ resolve m' = Some out'
    ∧ (is_defined "ARM_NEON_INTRINSICS" out = true
       ↔ is_defined "__ARM_NEON__" (start m) = true)
    ∧ is_defined "ARM_NEON_INTRINSICS" out'
      = is_defined "ARM_NEON_INTRINSICS" out.
Proof.
  intros Hown Hnum Hown' Hnum' Hneon.
  exists (resolved (start m)), (resolved (start m')).
  split; [by apply resolve_eq|]. split; [by apply resolve_eq|].
  by rewrite (resolved_NEON _ Hown), (resolved_NEON _ Hown'), Hneon.
Qed.

Lemma neon_iff_arm_neon_witness :
  toolchain_symbols clang_macos_arm64 = true
  ∧ numeric (start clang_macos_arm64) = true
  ∧ toolchain_symbols msvc_x64_neon = true
  ∧ numeric (start msvc_x64_neon) = true
  ∧ is_defined "__ARM_NEON__" (start msvc_x64_neon)
    = is_defined "__ARM_NEON__" (start clang_macos_arm64)
  ∧ ∃ out out',
      resolve clang_macos_arm64 = Some out
      ∧ resolve msvc_x64_neon = Some out'
      ∧ (is_defined "ARM_NEON_INTRINSICS" out = true
         ↔ is_defined "__ARM_NEON__" (start clang_macos_arm64) = true)
      ∧ is_defined "ARM_NEON_INTRINSICS" out'
        = is_defined "ARM_NEON_INTRINSICS" out.
Proof.
  do 5 (split; [reflexivity|]).
  apply (neon_iff_arm_neon clang_macos_arm64 msvc_x64_neon); reflexivity.
Defined.

(** C9.  The flags are a function of the symbol set and of nothing else.
    Two symbol sets that give the same definitions to the symbols the
    header tests, and to the two foreign names it may define, resolve to
    the same flags and to the same inclusions; and a second evaluation in
    the same unit changes nothing. *)
Theorem resolution_deterministic (m m' : gmap string body) :
  toolchain_symbols m = true → numeric (start m) = true →
  toolchain_symbols m' = true → same_symbols m m' = true →
  ∃ out out', resolve m = Some out ∧ resolve m' = Some out'
    ∧ flags_of out' = flags_of out
    ∧ included out' = included out
    ∧ labsound_macros_h out = Some out.
Proof.
  intros Hown Hnum Hown' Hsame.
  pose proof (same_symbols_tested m m' Hsame) as Ht.
  assert (numeric (start m') = true) as Hnum'
    by (by rewrite (numeric_frame _ _ Ht)).
  exists (resolved (start m)), (resolved (start m')).
  split; [by apply resolve_eq|]. split; [by apply resolve_eq|].
  assert (flags_of (resolved (start m')) = flags_of (resolved (start m)))
    as Hflags.
  { rewrite (resolved_flags _ Hown), (resolved_flags _ Hown').
    apply flags_from_symbols_frame; [done| |]; unfold is_defined; simpl;
      by rewrite (same_symbols_spec m m' _ Hsame). }
  split; [exact Hflags|]. split.
  - rewrite (resolved_included _ Hown), (resolved_included _ Hown').
    injection Hflags as Hl _ Ho _ _ _ _ _ Hv _ _ _ _.
    by rewrite Hl, Ho, Hv.
  - apply labsound_macros_h_again, resolved_guard.
Qed.

Lemma resolution_deterministic_witness :
  toolchain_symbols msvc_x64 = true
  ∧ numeric (start msvc_x64) = true
  ∧ toolchain_symbols msvc_x64_ndebug = true
  ∧ same_symbols msvc_x64 msvc_x64_ndebug = true
  ∧ ∃ out out',
      resolve msvc_x64 = Some out
      ∧ resolve msvc_x64_ndebug = Some out'
      ∧ flags_of out' = flags_of out
      ∧ included out' = included out
      ∧ labsound_macros_h out = Some out.
Proof.
  do 4 (split; [reflexivity|]).
  apply (resolution_deterministic msvc_x64 msvc_x64_ndebug); reflexivity.
Defined.

(** C10.  Besides LABSOUND_PLATFORM_OSX the header defines
    __MACOSX_CORE__, as 1, exactly when the platform resolved to macOS. *)
Theorem macosx_core_iff_osx (m : gmap string body) :
  toolchain_symbols m = true → numeric (start m) = true →
  ∃ out, resolve m = Some out
    ∧ (is_defined "__MACOSX_CORE__" out = true
       ↔ is_defined "LABSOUND_PLATFORM_OSX" out = true)
    ∧ (is_defined "LABSOUND_PLATFORM_OSX" out = true →
       macros out !! "__MACOSX_CORE__" = Some (Literal 1)).
Proof.
  intros Hown Hnum. exists (resolved (start m)).
  split; [by apply resolve_eq|].
  rewrite (resolved_MACOSX_CORE _ Hown). split; [done|].
  apply (resolved_MACOSX_CORE_body _ Hown).
Qed.

Lemma macosx_core_iff_osx_witness :
  toolchain_symbols clang_macos_arm64 = true
  ∧ numeric (start clang_macos_arm64) = true
  ∧ ∃ out, resolve clang_macos_arm64 = Some out
    ∧ (is_defined "__MACOSX_CORE__" out = true
       ↔ is_defined "LABSOUND_PLATFORM_OSX" out = true)
    ∧ (is_defined "LABSOUND_PLATFORM_OSX" out = true →
       macros out !! "__MACOSX_CORE__" = Some (Literal 1)).
Proof.
  split; [reflexivity|]. split; [reflexivity|].
  apply (macosx_core_iff_osx clang_macos_arm64); reflexivity.
Defined.

(** ** The header on some toolchains *)

Example resolve_gcc_linux_x86_64 :
  flags_of <$> resolve gcc_linux_x86_64
  = Some {| PLATFORM_LINUX := true; PLATFORM_WINDOWS := false;
            PLATFORM_OSX := false; MACOSX_CORE := false;
            ARCH_32 := false; ARCH_64 := true;
            COMPILER_CLANG := false; COMPILER_GCC := true;
            COMPILER_VISUAL_STUDIO := false;
            SIMD_SSE2_AVAILABLE := true; USE_MATH_DEFINES := false;
            ARM_NEON_INTRINSICS := false; USE_EMBEDDED_FFT := true |}.
Proof. vm_compute. reflexivity. Qed.

Example resolve_msvc_x64 :
  flags_of <$> resolve msvc_x64
  = Some {| PLATFORM_LINUX := false; PLATFORM_WINDOWS := true;
            PLATFORM_OSX := false; MACOSX_CORE := false;
            ARCH_32 := false; ARCH_64 := true;
            COMPILER_CLANG := false; COMPILER_GCC := false;
            COMPILER_VISUAL_STUDIO := true;
            SIMD_SSE2_AVAILABLE := true; USE_MATH_DEFINES := true;
            ARM_NEON_INTRINSICS := false; USE_EMBEDDED_FFT := false |}
  ∧ included <$> resolve msvc_x64 = Some ["stdint.h"; "math.h"; "cmath"]
  ∧ diagnostics <$> resolve msvc_x64 = Some [].
Proof. repeat split; vm_compute; reflexivity. Qed.

Example resolve_clang_macos_arm64 :
  flags_of <$> resolve clang_macos_arm64
  = Some {| PLATFORM_LINUX := false; PLATFORM_WINDOWS := false;
            PLATFORM_OSX := true; MACOSX_CORE := true;
            ARCH_32 := false; ARCH_64 := false;
            COMPILER_CLANG := true; COMPILER_GCC := false;
            COMPILER_VISUAL_STUDIO := false;
            SIMD_SSE2_AVAILABLE := false; USE_MATH_DEFINES := false;
            ARM_NEON_INTRINSICS := true; USE_EMBEDDED_FFT := true |}
  ∧ included <$> resolve clang_macos_arm64 = Some ["math.h"].
Proof. repeat split; vm_compute; reflexivity. Qed.

(** clang-cl predefines __SSE2__ as 1 and defines _M_X64: line 29 redefines
    the macro with an empty body, which is diagnosed. *)
Example resolve_clang_cl_redefines_sse2 :
  diagnostics <$> resolve clang_cl = Some [Redefined "__SSE2__"]
  ∧ (macros <$> resolve clang_cl) ≫= (.!! "__SSE2__") = Some NoTokens.
Proof. repeat split; vm_compute; reflexivity. Qed.

(** A symbol of line 28 that is defined with an empty body leaves the
    expression without an operand: the translation stops. *)
Example resolve_empty_operand :
  resolve (<["_M_AMD64" := NoTokens]> msvc_x64) = None.
Proof. vm_compute. reflexivity. Qed.

(** The header a second time in the same unit: the guard skips it. *)
Example resolve_twice :
  resolve msvc_x64 ≫= labsound_macros_h = resolve msvc_x64.
Proof. vm_compute. reflexivity. Qed.

(** ** Beyond the first inclusion *)

Lemma diagnostics_cdefine_redefines c n b st :
  diagnostics (cdefine c n b st)
  = diagnostics st
    ++ (if c && redefines n b st then [Redefined n] else []).
Proof.
  unfold redefines. destruct c; simpl; [|by rewrite app_nil_r].
  unfold define. destruct (macros st !! n) as [b'|]; simpl.
  - destruct (decide (b' = b)) as [->|Hne].
    + by rewrite bool_decide_eq_true_2, app_nil_r.
    + by rewrite bool_decide_eq_false_2.
  - by rewrite app_nil_r.
Qed.

Lemma extends_refl st : extends st st.
Proof.
  split; [apply same_inputs_refl|]. split; [done|]. split; reflexivity.
Qed.

Lemma extends_cdefine st st' c n b :
  is_header_name n = true → extends st st' → extends st (cdefine c n b st').
Proof.
  intros Hn (Hsame & Hmono & Hinc & Hdiag). split; [|split; [|split]].
  - by apply same_inputs_cdefine.
  - intros k Hk. rewrite is_defined_cdefine, (Hmono k Hk). apply orb_true_r.
  - by rewrite included_cdefine.
  - rewrite diagnostics_cdefine_redefines. by apply prefix_app_r.
Qed.

Lemma extends_define st st' n b :
  is_header_name n = true → extends st st' → extends st (define n b st').
Proof. apply (extends_cdefine st st' true). Qed.

Lemma extends_cinclude st st' c h :
  extends st st' → extends st (cinclude c h st').
Proof.
  intros (Hsame & Hmono & Hinc & Hdiag). split; [|split; [|split]].
  - by apply same_inputs_cinclude.
  - intros k Hk. rewrite is_defined_cinclude. by apply Hmono.
  - rewrite included_cinclude. by apply prefix_app_r.
  - by rewrite diagnostics_cinclude.
Qed.

Lemma extends_resolved st : extends st (resolved st).
Proof.
  unfold resolved. cbv zeta.
  repeat first
    [ apply extends_cinclude
    | apply extends_cdefine; [reflexivity|]
    | apply extends_define; [reflexivity|] ].
  apply extends_refl.
Qed.

Lemma accepted_cases st :
  accepted st = true →
  is_defined "labsound_macros_h" st = true
  ∨ (is_defined "labsound_macros_h" st = false ∧ numeric st = true).
Proof.
  unfold accepted. destruct (is_defined "labsound_macros_h" st); auto.
Qed.

(** X1.  Whenever the header goes through it leaves its guard defined, and
    including it once more in the unit it left changes nothing at all: no
    macro, no inclusion, no diagnostic.  This holds whatever the unit
    defined beforehand. *)
Theorem second_inclusion_changes_nothing (st : tu) :
  accepted st = true →
  ∃ out, labsound_macros_h st = Some out
    ∧ is_defined "labsound_macros_h" out = true
    ∧ labsound_macros_h out = Some out.
Proof.
  intros [Hguard | [Hguard Hnum]]%accepted_cases.
  - exists st. rewrite (labsound_macros_h_again st Hguard). by repeat split.
  - exists (resolved st). rewrite (labsound_macros_h_eq st Hguard Hnum).
    split; [done|]. split; [apply resolved_guard|].
    apply labsound_macros_h_again, resolved_guard.
Qed.

Lemma second_inclusion_changes_nothing_witness :
  accepted (start clang_cl) = true
  ∧ ∃ out, labsound_macros_h (start clang_cl) = Some out
    ∧ is_defined "labsound_macros_h" out = true
    ∧ labsound_macros_h out = Some out.
Proof.
  split; [reflexivity|].
  apply (second_inclusion_changes_nothing (start clang_cl)); reflexivity.
Defined.

Lemma ident_None n st :
  ident n st = None
  ↔ macros st !! n = Some NoTokens
    ∨ ∃ z, macros st !! n = Some (Literal z) ∧ fits z = false.
Proof.
  unfold ident. destruct (macros st !! n) as [[|z]|].
  - split; [by left | done].
  - destruct (fits z) eqn:Hfits.
    + split; [done|]. intros [?|(z' & [= <-] & ?)]; congruence.
    + split; [|done]. intros _. right. by exists z.
  - split; [done|]. by intros [?|(z & ? & _)].
Qed.




(** X4.  Every flag of the header's own that is defined after the header
    has the body 1, so that a user may test it with #if as well as with
    #ifdef; only the guard has an empty body. *)
Theorem own_flags_are_1 (m : gmap string body) :
  toolchain_symbols m = true → numeric (start m) = true →
  ∃ out, resolve m = Some out
    ∧ macros out !! "labsound_macros_h" = Some NoTokens
    ∧ ∀ k b, In k own_names → k ≠ "labsound_macros_h" →
             macros out !! k = Some b → b = Literal 1.
Proof.
  intros Hown Hnum. exists (resolved (start m)).
  split; [by apply resolve_eq|].
  assert (∀ n, existsb (String.eqb n) own_names = true →
               macros (start m) !! n = None) as Hfree.
  { intros n Hn. by apply is_defined_false, (none_defined_spec own_names). }
  split.
  { unfold resolved; cbv zeta; read_table. rewrite lookup_define.
    reflexivity. }
  intros k b Hk Hne. simpl in Hk.
  repeat (destruct Hk as [<-|Hk]; [try done|]); [..|destruct Hk];
    unfold resolved; cbv zeta; read_table;
    match goal with
    | |- context [macros (start m) !! ?n] => rewrite (Hfree n eq_refl)
    end;
    repeat match goal with
           | |- context [if ?c then _ else _] => destruct c
           end;
    congruence.
Qed.

Lemma own_flags_are_1_witness :
  toolchain_symbols clang_macos_arm64 = true
  ∧ numeric (start clang_macos_arm64) = true
  ∧ ∃ out, resolve clang_macos_arm64 = Some out
    ∧ macros out !! "labsound_macros_h" = Some NoTokens
    ∧ ∀ k b, In k own_names → k ≠ "labsound_macros_h" →
             macros out !! k = Some b → b = Literal 1.
Proof.
  split; [reflexivity|]. split; [reflexivity|].
  apply (own_flags_are_1 clang_macos_arm64); reflexivity.
Defined.

Lemma redefines_NoTokens n st :
  redefines n NoTokens st = true ↔ ∃ z, macros st !! n = Some (Literal z).
Proof.
  unfold redefines. destruct (macros st !! n) as [[|z]|]; simpl.
  - split; [done|]. by intros (z & ?).
  - split; [|done]. intros _. by exists z.
  - split; [done|]. by intros (z & ?).
Qed.



(** X6.  The first operand of line 28 does nothing: the group behaves, on
    every unit, as if the line read
    [#if (_M_IX86_FP >= 2) || (_M_AMD64) || defined(_M_X64)].  In
    particular it does not protect the comparison from a macro without a
    value. *)
Theorem first_operand_of_line_28_is_redundant (st : tu) :
  sse2 st
  = If ((ident "_M_IX86_FP" >= num 2) || ident "_M_AMD64"
        || defined "_M_X64")
      (Define "__SSE2__" NoTokens)
    Endif st.
Proof.
  unfold sse2, If, e_or, e_and, e_ge, num, defined.
  destruct (ident "_M_IX86_FP" st) as [fp|]; [|done].
  destruct (ident "_M_AMD64" st) as [amd|]; [|done].
  simpl. rewrite !truth_b2z.
  replace (truth fp && (2 <=? fp)) with (2 <=? fp); [done|].
  unfold truth.
  destruct (Z.leb_spec 2 fp), (Z.eqb_spec fp 0); simpl; done || lia.
Qed.

(** X7.  Lines 32-54 act on the flags as they stand, not on the symbols
    that set them.  On any first inclusion, also in a build that has set
    some of the header's flags itself, WEBAUDIO_KISSFFT ends up defined
    exactly when it was already or when the Linux or the macOS flag is
    defined; math.h is included by line 44 under the same two flags; and
    the shims of lines 33-36 come with the Visual Studio flag. *)
Theorem later_groups_follow_the_flags (st : tu) :
  is_defined "labsound_macros_h" st = false → numeric st = true →
  ∃ out, labsound_macros_h st = Some out
    ∧ is_defined "WEBAUDIO_KISSFFT" out
      = is_defined "LABSOUND_PLATFORM_LINUX" out
        || is_defined "LABSOUND_PLATFORM_OSX" out
        || is_defined "WEBAUDIO_KISSFFT" st
    ∧ included out
      = included st
        ++ (if is_defined "LABSOUND_COMPILER_VISUAL_STUDIO" out
            then ["stdint.h"; "math.h"; "cmath"] else [])
        ++ (if is_defined "LABSOUND_PLATFORM_OSX" out
               || is_defined "LABSOUND_PLATFORM_LINUX" out
            then ["math.h"] else [])
    ∧ macros out !! "_USE_MATH_DEFINES"
      = (if is_defined "LABSOUND_COMPILER_VISUAL_STUDIO" out
         then Some NoTokens else macros st !! "_USE_MATH_DEFINES").
Proof.
  intros Hguard Hnum. exists (resolved st).
  split; [by apply labsound_macros_h_eq|].
  assert (∃ lx, is_defined "LABSOUND_PLATFORM_LINUX" (resolved st) = lx
                ∧ lx = linux_like st
                       || is_defined "LABSOUND_PLATFORM_LINUX" st)
    as (lx & -> & Hlx).
  { eexists. split; [reflexivity|].
    unfold resolved; cbv zeta. by read_table. }
  assert (∃ ox, is_defined "LABSOUND_PLATFORM_OSX" (resolved st) = ox
                ∧ ox = negb (linux_like st)
                       && negb (negb (linux_like st) && windows_like st)
                       && osx_like st
                       || is_defined "LABSOUND_PLATFORM_OSX" st)
    as (ox & -> & Hox).
  { eexists. split; [reflexivity|].
    unfold resolved; cbv zeta. by read_table. }
  assert (∃ vs, is_defined "LABSOUND_COMPILER_VISUAL_STUDIO" (resolved st)
                = vs
                ∧ vs = negb (is_defined "__clang__" st)
                       && negb (negb (is_defined "__clang__" st)
                                && is_defined "__GNUC__" st)
                       && is_defined "_MSC_VER" st
                       || is_defined "LABSOUND_COMPILER_VISUAL_STUDIO" st)
    as (vs & -> & Hvs).
  { eexists. split; [reflexivity|].
    unfold resolved; cbv zeta. by read_table. }
  unfold resolved; cbv zeta. rewrite <- Hlx, <- Hox, <- Hvs.
  split; [|split].
  - read_table. by destruct lx, ox.
  - repeat first [ rewrite included_cdefine | rewrite included_cinclude
                 | rewrite included_define ].
    rewrite <- !app_assoc. by destruct vs.
  - by read_table.
Qed.

Lemma later_groups_follow_the_flags_witness :
  is_defined "labsound_macros_h" (start msvc_x64_forced_linux) = false
  ∧ numeric (start msvc_x64_forced_linux) = true
  ∧ ∃ out, labsound_macros_h (start msvc_x64_forced_linux) = Some out
    ∧ is_defined "WEBAUDIO_KISSFFT" out
      = is_defined "LABSOUND_PLATFORM_LINUX" out
        || is_defined "LABSOUND_PLATFORM_OSX" out
        || is_defined "WEBAUDIO_KISSFFT" (start msvc_x64_forced_linux)
    ∧ included out
      = included (start msvc_x64_forced_linux)
        ++ (if is_defined "LABSOUND_COMPILER_VISUAL_STUDIO" out
            then ["stdint.h"; "math.h"; "cmath"] else [])
        ++ (if is_defined "LABSOUND_PLATFORM_OSX" out
               || is_defined "LABSOUND_PLATFORM_LINUX" out
            then ["math.h"] else [])
    ∧ macros out !! "_USE_MATH_DEFINES"
      = (if is_defined "LABSOUND_COMPILER_VISUAL_STUDIO" out
         then Some NoTokens
         else macros (start msvc_x64_forced_linux) !! "_USE_MATH_DEFINES").
Proof.
  split; [reflexivity|]. split; [reflexivity|].
  apply (later_groups_follow_the_flags (start msvc_x64_forced_linux));
    reflexivity.
Defined.

Lemma same_tests_spec m m' :
  same_tests m m' = true →
  (∀ n, existsb (String.eqb n) (input_names ++ foreign_names) = true →
        is_defined n (start m') = is_defined n (start m))
  ∧ ident "_M_IX86_FP" (start m') = ident "_M_IX86_FP" (start m)
  ∧ ident "_M_AMD64" (start m') = ident "_M_AMD64" (start m).
Proof.
  unfold same_tests.
  intros [[Hdef Hfp%bool_decide_eq_true_1]%andb_true_iff
            Hamd%bool_decide_eq_true_1]%andb_true_iff.
  split; [|done]. intros n Hn. rewrite forallb_forall in Hdef.
  apply existsb_exists in Hn as (k & Hk & Heq).
  apply String.eqb_eq in Heq as ->. by apply Bool.eqb_prop, Hdef.
Qed.


